(** * vimbax_camera_node: streaming lifecycle and request dispatch

    A shallow embedding of [vimbax_camera/src/vimbax_camera_node.cpp]:
    the graph monitor, the frame callback, teardown, the parameter
    callback and the service handlers, with the properties the
    specification states about them. *)

From Stdlib Require Import ZArith List String Bool Lia.
From Stdlib Require DecimalString DecimalN.
Import ListNotations.
Local Open Scope Z_scope.
Local Open Scope list_scope.

(** ** Machine integers *)

(** [int64_t]: two's complement on 64 bits. *)
Definition int64_min : Z := - 2 ^ 63.
Definition int64_max : Z := 2 ^ 63 - 1.

Definition in_int64 (z : Z) : Prop := int64_min <= z <= int64_max.

Definition wrap64 (z : Z) : Z := (z + 2 ^ 63) mod 2 ^ 64 - 2 ^ 63.

(** [a - b] on [int64_t]. *)
Definition sub64 (a b : Z) : Z := wrap64 (a - b).

(** ** Results and error codes *)

(** [result<T>]: a value, or [error{code}].  [if (!result)] tests for
    the second case, whatever the code is. *)
Inductive result (A : Type) : Type :=
| Ok (value : A)
| Err (code : Z).
Arguments Ok {A} value.
Arguments Err {A} code.

(** [VmbErrorSuccess] of the VmbC API. *)
Definition VmbErrorSuccess : Z := 0.

(** ** The camera handle *)

Module VimbaXCamera.

(** The part of [VimbaXCamera] the node drives its streaming with.
    The class is implemented outside this translation unit, so the
    node is verified against every implementation of the interface.
    [start_streaming] also receives the frame callback; the node has
    one callback only ([VimbaXCameraNode.frame_callback]), which the
    camera invokes by delivering frames to the node. *)
Class Interface (C : Type) : Type := {
  is_streaming : C -> bool;
  start_streaming : Z -> C -> result unit * C;
  stop_streaming : C -> result unit * C
}.

(** [feature_float_info_get]'s answer. *)
Record float_info (double : Type) : Type := mk_float_info {
  min : double;
  max : double;
  inc : double;
  inc_available : bool
}.
Arguments min {double}.
Arguments max {double}.
Arguments inc {double}.
Arguments inc_available {double}.

Record feature_flags : Type := mk_feature_flags {
  flag_none : bool;
  flag_read : bool;
  flag_write : bool;
  flag_volatile : bool;
  flag_modify_write : bool
}.

(** An element of [feature_info_query_list]'s answer. *)
Record feature_info : Type := mk_feature_info {
  name : string;
  category : string;
  display_name : string;
  sfnc_namespace : string;
  feature_unit : string;   (* unit *)
  data_type : Z;
  flags : feature_flags;
  polling_time : Z
}.

(** [camera_info_get]'s answer. *)
Record Info (double : Type) : Type := mk_Info {
  info_display_name : string;
  info_model_name : string;
  info_firmware_version : string;
  info_device_id : string;
  info_device_user_id : string;
  info_device_serial_number : string;
  info_interface_id : string;
  info_transport_layer_id : string;
  info_streaming : bool;
  info_width : Z;
  info_height : Z;
  info_frame_rate : double;
  info_pixel_format : string;
  info_trigger_mode : string;
  info_trigger_source : string;
  info_ip_address : option string;
  info_mac_address : option string
}.

(** The feature, settings and status calls the service handlers make;
    [double] is the camera's floating-point type. *)
Class Features (C double : Type) : Type := {
  feature_int_get : string -> C -> result Z * C;
  feature_int_set : string -> Z -> C -> result unit * C;
  feature_int_info_get : string -> C -> result (Z * Z * Z) * C;
  feature_float_get : string -> C -> result double * C;
  feature_float_set : string -> double -> C -> result unit * C;
  feature_float_info_get : string -> C -> result (float_info double) * C;
  feature_string_get : string -> C -> result string * C;
  feature_string_set : string -> string -> C -> result unit * C;
  feature_string_info_get : string -> C -> result Z * C;
  feature_bool_get : string -> C -> result bool * C;
  feature_bool_set : string -> bool -> C -> result unit * C;
  feature_command_is_done : string -> C -> result bool * C;
  feature_command_run : string -> C -> result unit * C;
  feature_enum_get : string -> C -> result string * C;
  feature_enum_set : string -> string -> C -> result unit * C;
  feature_enum_info_get : string -> C -> result (list string * list string) * C;
  feature_enum_as_int_get : string -> string -> C -> result Z * C;
  feature_enum_as_string_get : string -> Z -> C -> result string * C;
  feature_raw_get : string -> C -> result (list Byte.byte) * C;
  feature_raw_set : string -> list Byte.byte -> C -> result unit * C;
  feature_raw_info_get : string -> C -> result Z * C;
  feature_access_mode_get : string -> C -> result (bool * bool) * C;
  feature_info_query_list : list string -> C -> result (list feature_info) * C;
  features_list_get : C -> result (list string) * C;
  settings_save : string -> C -> result unit * C;
  settings_load : string -> C -> result unit * C;
  camera_info_get : C -> result (Info double) * C
}.

End VimbaXCamera.

(** ** Service responses *)

Module vimbax_camera_msgs.

(** Every response carries an [error] next to the fields of its own;
    a response nobody has written an error to has the error it was
    created with. *)
Record Response (B : Type) : Type := mkResponse {
  error : Z;
  body : B
}.
Arguments mkResponse {B} error body.
Arguments error {B}.
Arguments body {B}.

Definition set__error {B} (code : Z) (r : Response B) : Response B :=
  mkResponse code (body r).

Definition set_body {B} (f : B -> B) (r : Response B) : Response B :=
  mkResponse (error r) (f (body r)).

Record IntInfo : Type := mkIntInfo { int_min : Z; int_max : Z; int_inc : Z }.

Record FloatInfo (double : Type) : Type := mkFloatInfo {
  float_min : double;
  float_max : double;
  float_inc : double;
  float_inc_available : bool
}.
Arguments mkFloatInfo {double}.

Record EnumInfo : Type := mkEnumInfo {
  possible_values : list string;
  available_values : list string
}.

Record RawValue : Type := mkRawValue {
  buffer : list Byte.byte;
  buffer_size : Z
}.

Record AccessMode : Type := mkAccessMode { is_readable : bool; is_writeable : bool }.

Record FeatureFlags : Type := mkFeatureFlags {
  flag_none : bool;
  flag_read : bool;
  flag_write : bool;
  flag_volatile : bool;
  flag_modify_write : bool
}.

Record FeatureInfo : Type := mkFeatureInfo {
  name : string;
  category : string;
  display_name : string;
  sfnc_namespace : string;
  feature_unit : string;   (* unit *)
  data_type : Z;
  flags : FeatureFlags;
  polling_time : Z
}.

Record Status (double : Type) : Type := mkStatus {
  status_display_name : string;
  model_name : string;
  device_firmware_version : string;
  device_id : string;
  device_user_id : string;
  device_serial_number : string;
  interface_id : string;
  transport_layer_id : string;
  streaming : bool;
  width : Z;
  height : Z;
  frame_rate : double;
  pixel_format : string;
  trigger_mode : string;
  trigger_source : string;
  ip_address : string;
  mac_address : string
}.
Arguments mkStatus {double}.
Arguments ip_address {double}.
Arguments mac_address {double}.

End vimbax_camera_msgs.

(** ** What the node does to its collaborators *)

Inductive severity : Type := INFO | WARN | ERROR.

(** The format strings of the [RCLCPP_*] calls, with their arguments. *)
Inductive log_text : Type :=
| FramesMissing (n : Z)          (* "%ld frames missing" *)
| FrameRequeueFailed (code : Z)  (* "Frame requeue failed with %d" *)
| StreamStarted (buffers : Z)    (* "Stream started using %ld buffers" *)
| StreamStopped.                 (* "Stream stopped" *)

Inductive event : Type :=
| CameraStartStreaming (buffer_count : Z) (* camera_->start_streaming(buffer_count, cb) *)
| CameraStopStreaming                     (* camera_->stop_streaming() *)
| CameraReset                             (* camera_.reset() *)
| StoreStopThreads                        (* stop_threads_.store(true) *)
| JoinGraphNotifyThread                   (* graph_notify_thread_->join() *)
| Publish (frame_id : Z)                  (* image_publisher_.publish(frame) *)
| Queue (frame_id : Z)                    (* frame->queue() *)
| Log (s : severity) (t : log_text).

Definition severity_eqb (a b : severity) : bool :=
  match a, b with
  | INFO, INFO | WARN, WARN | ERROR, ERROR => true
  | _, _ => false
  end.

(** The stream transitions requested of the camera. *)
Definition is_start (e : event) : bool :=
  match e with CameraStartStreaming _ => true | _ => false end.

Definition is_stop (e : event) : bool :=
  match e with CameraStopStreaming => true | _ => false end.

Definition is_transition (e : event) : bool := is_start e || is_stop e.

Definition is_queue (e : event) : bool :=
  match e with Queue _ => true | _ => false end.

(** The "frames missing" diagnostics. *)
Definition is_missing (e : event) : bool :=
  match e with Log WARN (FramesMissing _) => true | _ => false end.

Definition is_log (s : severity) (e : event) : bool :=
  match e with Log s' _ => severity_eqb s s' | _ => false end.

(** ** Frames *)

(** A delivered frame, as far as the callback looks at it: its id,
    an [int64_t] like the [lastFrameId] it is stored in, and the code
    [queue()] answers with when the buffer is handed back. *)
Record Frame : Type := mkFrame {
  get_frame_id : Z;
  queue : Z
}.

(** [image_publisher_.publish] either returns (whether or not anybody
    received the image) or leaves by an exception. *)
Inductive publish_outcome : Type := PublishReturns | PublishThrows.

(** How a callback is left. *)
Inductive completion : Type := Returned | Thrown.

(** ** Vectors *)

(** [v.at(index) = f(v.at(index))]; [at] throws [std::out_of_range]
    ([None]) past the end. *)
Fixpoint vector_at {A} (index : nat) (f : A -> A) (v : list A) : option (list A) :=
  match v, index with
  | [], _ => None
  | x :: v', O => Some (f x :: v')
  | x :: v', S i =>
      match vector_at i f v' with
      | None => None
      | Some w => Some (x :: w)
      end
  end.

(** [v.resize(n)]: the first [n] elements, padded with value-initialised
    ones. *)
Fixpoint vector_resize {A} (d : A) (n : nat) (v : list A) : list A :=
  match n with
  | O => []
  | S n' =>
      match v with
      | [] => d :: vector_resize d n' []
      | x :: v' => x :: vector_resize d n' v'
      end
  end.

(** ** Declared parameters *)

(** Modelled from the spec: the name of the buffer-count parameter,
    [parameter_buffer_count], a constant of the node's header. *)
Definition parameter_buffer_count : string := "buffer_count"%string.

(** [rcl_interfaces::msg::IntegerRange]. *)
Record IntegerRange : Type := mkIntegerRange {
  from_value : Z;
  step : Z;
  to_value : Z
}.

(** [bufferCountRange] of [initialize_parameters]. *)
Definition bufferCountRange : IntegerRange := mkIntegerRange 3 1 1000.

(** The default given to [declare_parameter]. *)
Definition default_buffer_count : Z := 7.

(** A value the range admits: within the bounds, on the step grid. *)
Definition in_range (r : IntegerRange) (v : Z) : bool :=
  (from_value r <=? v) && (v <=? to_value r)
  && ((v - from_value r) mod step r =? 0).

Module msgs := vimbax_camera_msgs.

(** A value-initialised [FeatureInfo]. *)
Definition default_FeatureInfo : msgs.FeatureInfo :=
  msgs.mkFeatureInfo EmptyString EmptyString EmptyString EmptyString EmptyString 0
    (msgs.mkFeatureFlags false false false false false) 0.

(** ** The node *)

Module VimbaXCameraNode.

Section Node.

Context {C : Type} {camera_interface : VimbaXCamera.Interface C}.

(** The members the streaming logic reads and writes.  [camera_] and
    [graph_notify_thread_] are pointers and may be null.
    [lastFrameId] is the [static] local of the frame callback: one
    variable for the whole process, initialised to [-1]. *)
Record Node : Type := mkNode {
  camera_ : option C;
  graph_notify_thread_ : bool;
  stop_threads_ : bool;
  buffer_count : Z;      (* node_->get_parameter(parameter_buffer_count).as_int() *)
  num_subscribers : N;   (* image_publisher_.getNumSubscribers() *)
  lastFrameId : Z
}.

Definition set_camera (c : option C) (nd : Node) : Node :=
  mkNode c (graph_notify_thread_ nd) (stop_threads_ nd) (buffer_count nd)
         (num_subscribers nd) (lastFrameId nd).

Definition set_stop_threads (b : bool) (nd : Node) : Node :=
  mkNode (camera_ nd) (graph_notify_thread_ nd) b (buffer_count nd)
         (num_subscribers nd) (lastFrameId nd).

Definition set_buffer_count (n : Z) (nd : Node) : Node :=
  mkNode (camera_ nd) (graph_notify_thread_ nd) (stop_threads_ nd) n
         (num_subscribers nd) (lastFrameId nd).

Definition set_num_subscribers (n : N) (nd : Node) : Node :=
  mkNode (camera_ nd) (graph_notify_thread_ nd) (stop_threads_ nd)
         (buffer_count nd) n (lastFrameId nd).

Definition set_lastFrameId (id : Z) (nd : Node) : Node :=
  mkNode (camera_ nd) (graph_notify_thread_ nd) (stop_threads_ nd)
         (buffer_count nd) (num_subscribers nd) id.

(** *** Member functions as state transformers

    A member function reads and writes the node and leaves a trace of
    events.  It has no result ([None]) when it dereferences a null
    [camera_] or is left by an exception of [std::vector::at]; the
    exception the frame callback can be left by is a result of its
    own, [Thrown]. *)
Definition M (A : Type) : Type := Node -> option (A * Node * list event).

Definition ret {A} (a : A) : M A := fun nd => Some (a, nd, []).

Definition bind {A B} (m : M A) (k : A -> M B) : M B :=
  fun nd =>
    match m nd with
    | None => None
    | Some (a, nd1, tr1) =>
        match k a nd1 with
        | None => None
        | Some (b, nd2, tr2) => Some (b, nd2, tr1 ++ tr2)
        end
    end.

Notation "x <- m ;; k" := (bind m (fun x => k))
  (at level 61, m at next level, right associativity).
Notation "m ;; k" := (bind m (fun _ => k))
  (at level 61, right associativity).

Definition emit (e : event) : M unit := fun nd => Some (tt, nd, [e]).

Definition gets {A} (f : Node -> A) : M A := fun nd => Some (f nd, nd, []).

Definition modify (f : Node -> Node) : M unit := fun nd => Some (tt, f nd, []).

Definition when (b : bool) (m : M unit) : M unit := if b then m else ret tt.

(** [camera_->f(...)]. *)
Definition on_camera {A} (f : C -> A * C) : M A :=
  fun nd =>
    match camera_ nd with
    | None => None
    | Some cam => let (a, cam') := f cam in Some (a, set_camera (Some cam') nd, [])
    end.

Definition camera_is_streaming : M bool :=
  on_camera (fun cam => (VimbaXCamera.is_streaming cam, cam)).

Definition camera_start_streaming (n : Z) : M (result unit) :=
  emit (CameraStartStreaming n) ;; on_camera (VimbaXCamera.start_streaming n).

Definition camera_stop_streaming : M (result unit) :=
  emit CameraStopStreaming ;; on_camera VimbaXCamera.stop_streaming.

Definition trace_of {A} (r : A * Node * list event) : list event := snd r.
Definition node_of {A} (r : A * Node * list event) : Node := snd (fst r).
Definition value_of {A} (r : A * Node * list event) : A := fst (fst r).

(** *** The frame callback: the lambda given to [camera_->start_streaming] *)
Definition frame_callback (frame : Frame) (pub : publish_outcome) : M completion :=
  last <- gets lastFrameId ;;
  let diff := sub64 (get_frame_id frame) last in
  when (1 <? diff) (emit (Log WARN (FramesMissing (sub64 diff 1)))) ;;
  modify (set_lastFrameId (get_frame_id frame)) ;;
  emit (Publish (get_frame_id frame)) ;;
  match pub with
  | PublishThrows => ret Thrown
  | PublishReturns =>
      emit (Queue (get_frame_id frame)) ;;
      let queue_error := queue frame in
      when (negb (queue_error =? VmbErrorSuccess))
           (emit (Log ERROR (FrameRequeueFailed queue_error))) ;;
      ret Returned
  end.

(** The frames of a run, one callback each; an exception ends the run. *)
Fixpoint deliver (frames : list (Frame * publish_outcome)) : M completion :=
  match frames with
  | [] => ret Returned
  | (frame, pub) :: rest =>
      c <- frame_callback frame pub ;;
      match c with
      | Returned => deliver rest
      | Thrown => ret Thrown
      end
  end.

(** *** [start_streaming] and [stop_streaming] *)
Definition start_streaming : M (result unit) :=
  n <- gets buffer_count ;;
  error <- camera_start_streaming n ;;
  emit (Log INFO (StreamStarted n)) ;;
  ret error.

Definition stop_streaming : M unit :=
  camera_stop_streaming ;;
  emit (Log INFO StreamStopped).

(** *** The graph monitor: [initialize_graph_notify]

    One turn of the loop body, after the bounded wait; [changed] is
    what [event->check_and_clear()] answers.  [&&] evaluates its right
    operand only when the left one holds. *)
Definition graph_notify_iteration (changed : bool) : M unit :=
  when changed (
    n <- gets num_subscribers ;;
    start <- (if (0 <? n)%N then s <- camera_is_streaming ;; ret (negb s)
              else ret false) ;;
    if start then start_streaming ;; ret tt
    else
      n' <- gets num_subscribers ;;
      stop <- (if (n' =? 0)%N then camera_is_streaming else ret false) ;;
      when stop stop_streaming).

(** The loop: the flag is tested before every turn. *)
Fixpoint graph_notify_loop (wakes : list bool) : M unit :=
  match wakes with
  | [] => ret tt
  | changed :: rest =>
      stop <- gets stop_threads_ ;;
      if stop then ret tt
      else graph_notify_iteration changed ;; graph_notify_loop rest
  end.

(** *** Teardown: [~VimbaXCameraNode]

    The monitor thread runs beside the destructor.  [turns] are the
    turns of its loop that it still completes after the flag is
    raised, before a load of [stop_threads_] answers [true]: the one
    it is in, if any, and as many more as the relaxed load lets
    through.  [join] returns when they are done. *)
Fixpoint graph_notify_turns (turns : list bool) : M unit :=
  match turns with
  | [] => ret tt
  | changed :: rest => graph_notify_iteration changed ;; graph_notify_turns rest
  end.

Definition join_graph_notify_thread (turns : list bool) : M unit :=
  graph_notify_turns turns ;;
  emit JoinGraphNotifyThread.

Definition destructor (turns : list bool) : M unit :=
  modify (set_stop_threads true) ;;
  emit StoreStopThreads ;;
  thread <- gets graph_notify_thread_ ;;
  when thread (join_graph_notify_thread turns) ;;
  cam <- gets camera_ ;;
  streaming <- (match cam with
                | Some _ => camera_is_streaming
                | None => ret false
                end) ;;
  when streaming (camera_stop_streaming ;; ret tt) ;;
  modify (set_camera None) ;;
  emit CameraReset.




(** *** Parameters: [initialize_parameters] *)

(** A [rclcpp::Parameter]: a name and a value. *)
Inductive ParameterValue : Type :=
| IntegerValue (i : Z)
| StringValue (s : string).

Record rclcpp_Parameter : Type := mkParameter {
  get_name : string;
  get_parameter_value : ParameterValue
}.

Record SetParametersResult : Type := mkSetParametersResult {
  successful : bool;
  reason : string
}.

(** The callback given to [add_on_set_parameters_callback]. *)
Fixpoint on_set_parameters (params : list rclcpp_Parameter) : M SetParametersResult :=
  match params with
  | [] => ret (mkSetParametersResult true EmptyString)
  | param :: rest =>
      if String.eqb (get_name param) parameter_buffer_count then
        streaming <- camera_is_streaming ;;
        if streaming then
          ret (mkSetParametersResult false
                 "Buffer count change not supported while streaming"%string)
        else on_set_parameters rest
      else on_set_parameters rest
  end.

(** What becomes of a request to set [buffer_count], which rclcpp
    handles around the callback: a value outside the declared range
    does not reach the callback; a value the callback refuses is not
    stored; any other value is the parameter's value from then on. *)
Inductive set_outcome : Type :=
| OutOfRange
| Refused (r : SetParametersResult)
| Stored.

Definition set_parameter_buffer_count (v : Z) : M set_outcome :=
  if in_range bufferCountRange v then
    r <- on_set_parameters [mkParameter parameter_buffer_count (IntegerValue v)] ;;
    if successful r then modify (set_buffer_count v) ;; ret Stored
    else ret (Refused r)
  else ret OutOfRange.

(** *** Services: [initialize_services] *)

Section Services.

Context {double : Type} {camera_features : VimbaXCamera.Features C double}.

(** The body every handler ends with:
    [if (!result) response->set__error(result.error().code); else ...]. *)
Definition respond {A B} (result : result A) (store : A -> B -> B)
    (response : msgs.Response B) : msgs.Response B :=
  match result with
  | Err code => msgs.set__error code response
  | Ok value => msgs.set_body (store value) response
  end.

(** A handler that makes one call on the camera and answers with it. *)
Definition serve {A B} (call : C -> result A * C) (store : A -> B -> B)
    (response : msgs.Response B) : M (msgs.Response B) :=
  result <- on_camera call ;;
  ret (respond result store response).

(** Handlers that set a value have nothing to store. *)
Definition nothing {B} (_ : Datatypes.unit) (b : B) : B := b.

Definition feature_int_get_service (feature_name : string) :=
  serve (VimbaXCamera.feature_int_get feature_name) (fun value (_ : Z) => value).

Definition feature_int_set_service (feature_name : string) (value : Z) :=
  serve (B := Datatypes.unit) (VimbaXCamera.feature_int_set feature_name value) nothing.

Definition feature_int_info_get_service (feature_name : string) :=
  serve (VimbaXCamera.feature_int_info_get feature_name)
        (fun '(r0, r1, r2) (_ : msgs.IntInfo) => msgs.mkIntInfo r0 r1 r2).

Definition feature_float_get_service (feature_name : string) :=
  serve (VimbaXCamera.feature_float_get feature_name) (fun value (_ : double) => value).

Definition feature_float_set_service (feature_name : string) (value : double) :=
  serve (B := Datatypes.unit) (VimbaXCamera.feature_float_set feature_name value) nothing.

Definition feature_float_info_get_service (feature_name : string) :=
  serve (VimbaXCamera.feature_float_info_get feature_name)
        (fun r (_ : msgs.FloatInfo double) =>
           msgs.mkFloatInfo (VimbaXCamera.min r) (VimbaXCamera.max r)
                            (VimbaXCamera.inc r) (VimbaXCamera.inc_available r)).

Definition feature_string_get_service (feature_name : string) :=
  serve (VimbaXCamera.feature_string_get feature_name) (fun value (_ : string) => value).

Definition feature_string_set_service (feature_name value : string) :=
  serve (B := Datatypes.unit) (VimbaXCamera.feature_string_set feature_name value) nothing.

Definition feature_string_info_get_service (feature_name : string) :=
  serve (VimbaXCamera.feature_string_info_get feature_name)
        (fun max_length (_ : Z) => max_length).

Definition feature_bool_get_service (feature_name : string) :=
  serve (VimbaXCamera.feature_bool_get feature_name) (fun value (_ : bool) => value).

Definition feature_bool_set_service (feature_name : string) (value : bool) :=
  serve (B := Datatypes.unit) (VimbaXCamera.feature_bool_set feature_name value) nothing.

Definition feature_command_is_done_service (feature_name : string) :=
  serve (VimbaXCamera.feature_command_is_done feature_name)
        (fun is_done (_ : bool) => is_done).

Definition feature_command_run_service (feature_name : string) :=
  serve (B := Datatypes.unit) (VimbaXCamera.feature_command_run feature_name) nothing.

Definition feature_enum_get_service (feature_name : string) :=
  serve (VimbaXCamera.feature_enum_get feature_name) (fun value (_ : string) => value).

Definition feature_enum_set_service (feature_name value : string) :=
  serve (B := Datatypes.unit) (VimbaXCamera.feature_enum_set feature_name value) nothing.

Definition feature_enum_info_get_service (feature_name : string) :=
  serve (VimbaXCamera.feature_enum_info_get feature_name)
        (fun '(r0, r1) (_ : msgs.EnumInfo) => msgs.mkEnumInfo r0 r1).

Definition feature_enum_as_int_get_service (feature_name option : string) :=
  serve (VimbaXCamera.feature_enum_as_int_get feature_name option)
        (fun value (_ : Z) => value).

Definition feature_enum_as_string_get_service (feature_name : string) (value : Z) :=
  serve (VimbaXCamera.feature_enum_as_string_get feature_name value)
        (fun option (_ : string) => option).

Definition feature_raw_get_service (feature_name : string) :=
  serve (VimbaXCamera.feature_raw_get feature_name)
        (fun r (_ : msgs.RawValue) => msgs.mkRawValue r (Z.of_nat (List.length r))).

Definition feature_raw_set_service (feature_name : string) (buffer : list Byte.byte) :=
  serve (B := Datatypes.unit) (VimbaXCamera.feature_raw_set feature_name buffer) nothing.

Definition feature_raw_info_get_service (feature_name : string) :=
  serve (VimbaXCamera.feature_raw_info_get feature_name)
        (fun max_length (_ : Z) => max_length).

Definition feature_access_mode_get_service (feature_name : string) :=
  serve (VimbaXCamera.feature_access_mode_get feature_name)
        (fun '(r0, r1) (_ : msgs.AccessMode) => msgs.mkAccessMode r0 r1).

(** The assignments of the loop body of [feature_info_query]: every
    field of the slot is written. *)
Definition copy_feature_info (data : VimbaXCamera.feature_info)
    (slot : msgs.FeatureInfo) : msgs.FeatureInfo :=
  msgs.mkFeatureInfo
    (VimbaXCamera.name data) (VimbaXCamera.category data)
    (VimbaXCamera.display_name data) (VimbaXCamera.sfnc_namespace data)
    (VimbaXCamera.feature_unit data) (VimbaXCamera.data_type data)
    (msgs.mkFeatureFlags
       (VimbaXCamera.flag_none (VimbaXCamera.flags data))
       (VimbaXCamera.flag_read (VimbaXCamera.flags data))
       (VimbaXCamera.flag_write (VimbaXCamera.flags data))
       (VimbaXCamera.flag_volatile (VimbaXCamera.flags data))
       (VimbaXCamera.flag_modify_write (VimbaXCamera.flags data)))
    (VimbaXCamera.polling_time data).

(** [for (auto data : *result) { ... .at(index) ... ; index++; }] *)
Fixpoint fill_feature_info (index : nat) (result : list VimbaXCamera.feature_info)
    (v : list msgs.FeatureInfo) : option (list msgs.FeatureInfo) :=
  match result with
  | [] => Some v
  | data :: rest =>
      match vector_at index (copy_feature_info data) v with
      | None => None
      | Some v' => fill_feature_info (S index) rest v'
      end
  end.

Definition feature_info_query_service (feature_names : list string)
    (response : msgs.Response (list msgs.FeatureInfo))
    : M (msgs.Response (list msgs.FeatureInfo)) :=
  result <- on_camera (VimbaXCamera.feature_info_query_list feature_names) ;;
  match result with
  | Err code => ret (msgs.set__error code response)
  | Ok r =>
      let resized := vector_resize default_FeatureInfo (List.length r) (msgs.body response) in
      match fill_feature_info 0 r resized with
      | Some v => ret (msgs.set_body (fun _ => v) response)
      | None => fun _ => None
      end
  end.

Definition features_list_get_service :=
  serve VimbaXCamera.features_list_get (fun r (_ : list string) => r).

Definition settings_save_service (filename : string) :=
  serve (B := Datatypes.unit) (VimbaXCamera.settings_save filename) nothing.

Definition settings_load_service (filename : string) :=
  serve (B := Datatypes.unit) (VimbaXCamera.settings_load filename) nothing.

(** The setters of the [status] handler; the two addresses are
    written only when the camera reports them. *)
Definition store_status (info : VimbaXCamera.Info double)
    (b : msgs.Status double) : msgs.Status double :=
  msgs.mkStatus
    (VimbaXCamera.info_display_name _ info) (VimbaXCamera.info_model_name _ info)
    (VimbaXCamera.info_firmware_version _ info) (VimbaXCamera.info_device_id _ info)
    (VimbaXCamera.info_device_user_id _ info)
    (VimbaXCamera.info_device_serial_number _ info)
    (VimbaXCamera.info_interface_id _ info)
    (VimbaXCamera.info_transport_layer_id _ info)
    (VimbaXCamera.info_streaming _ info)
    (VimbaXCamera.info_width _ info) (VimbaXCamera.info_height _ info)
    (VimbaXCamera.info_frame_rate _ info) (VimbaXCamera.info_pixel_format _ info)
    (VimbaXCamera.info_trigger_mode _ info) (VimbaXCamera.info_trigger_source _ info)
    (match VimbaXCamera.info_ip_address _ info with
     | Some ip => ip
     | None => msgs.ip_address b
     end)
    (match VimbaXCamera.info_mac_address _ info with
     | Some mac => mac
     | None => msgs.mac_address b
     end).

Definition status_service := serve VimbaXCamera.camera_info_get store_status.

(** [stream_start] goes through the node's [start_streaming];
    [stream_stop] calls the camera itself. *)
Definition stream_start_service (response : msgs.Response Datatypes.unit)
    : M (msgs.Response Datatypes.unit) :=
  result <- start_streaming ;;
  ret (respond result nothing response).

Definition stream_stop_service (response : msgs.Response Datatypes.unit)
    : M (msgs.Response Datatypes.unit) :=
  result <- camera_stop_streaming ;;
  ret (respond result nothing response).

(** [handler] makes the one call [call] on the camera and answers with
    its result: the code of a failure as the response's error, the
    value of a success stored by [store] with the error left alone. *)
Definition forwards {A B} (handler : msgs.Response B -> M (msgs.Response B))
    (call : C -> result A * C) (store : A -> B -> B) : Prop :=
  forall (response : msgs.Response B) (nd : Node) (cam : C),
    camera_ nd = Some cam ->
    exists response',
      handler response nd
      = Some (response', set_camera (Some (snd (call cam))) nd, [])
      /\ match fst (call cam) with
         | Err code =>
             msgs.error response' = code
             /\ msgs.body response' = msgs.body response
         | Ok value =>
             msgs.error response' = msgs.error response
             /\ msgs.body response' = store value (msgs.body response)
         end.

End Services.

End Node.

End VimbaXCameraNode.

(** ** Callback groups and the executor *)

Module Scheduling.

Inductive CallbackGroupType : Type := MutuallyExclusive | Reentrant.

(** The groups of [initialize_callback_groups]. *)
Inductive callback_group : Type :=
| feature_callback_group_
| settings_load_save_callback_group_
| status_callback_group_
| stream_start_stop_callback_group_.

Definition group_type (g : callback_group) : CallbackGroupType :=
  match g with
  | feature_callback_group_ => Reentrant
  | settings_load_save_callback_group_ => MutuallyExclusive
  | status_callback_group_ => Reentrant
  | stream_start_stop_callback_group_ => MutuallyExclusive
  end.

Definition callback_group_eqb (a b : callback_group) : bool :=
  match a, b with
  | feature_callback_group_, feature_callback_group_
  | settings_load_save_callback_group_, settings_load_save_callback_group_
  | status_callback_group_, status_callback_group_
  | stream_start_stop_callback_group_, stream_start_stop_callback_group_ => true
  | _, _ => false
  end.

(** The services of [initialize_services]. *)
Inductive service : Type :=
| feature_int_get_service_ | feature_int_set_service_ | feature_int_info_get_service_
| feature_float_get_service_ | feature_float_set_service_ | feature_float_info_get_service_
| feature_string_get_service_ | feature_string_set_service_
| feature_string_info_get_service_
| feature_bool_get_service_ | feature_bool_set_service_
| feature_command_is_done_service_ | feature_command_run_service_
| feature_enum_get_service_ | feature_enum_set_service_ | feature_enum_info_get_service_
| feature_enum_as_int_get_service_ | feature_enum_as_string_get_service_
| feature_raw_get_service_ | feature_raw_set_service_ | feature_raw_info_get_service_
| feature_access_mode_get_service_ | feature_info_query_service_
| features_list_get_service_
| settings_save_service_ | settings_load_service_
| status_service_
| stream_start_service_ | stream_stop_service_.

(** The group each service is created in: the last argument of its
    [create_service]. *)
Definition service_group (s : service) : callback_group :=
  match s with
  | settings_save_service_ | settings_load_service_ =>
      settings_load_save_callback_group_
  | status_service_ => status_callback_group_
  | stream_start_service_ | stream_stop_service_ =>
      stream_start_stop_callback_group_
  | _ => feature_callback_group_
  end.

(** Code of the node that can be running: a service handler, which the
    executor runs, or a call of [start_streaming] or [stop_streaming]
    made by the graph monitor on its own [std::thread]. *)
Inductive activity : Type :=
| Handler (s : service)
| GraphNotifyStart
| GraphNotifyStop.

Definition runs_in (g : callback_group) (t : activity) : bool :=
  match t with
  | Handler s => callback_group_eqb (service_group s) g
  | _ => false
  end.

Definition is_graph_notify (t : activity) : bool :=
  match t with
  | Handler _ => false
  | _ => true
  end.

(** The executor starts a handler of a mutually exclusive group only
    while no handler of that group runs; the monitor thread is
    sequential, and nothing else holds it back: it belongs to no
    group and the node has no lock. *)
Definition may_begin (running : list activity) (t : activity) : bool :=
  match t with
  | Handler s =>
      match group_type (service_group s) with
      | Reentrant => true
      | MutuallyExclusive => negb (existsb (runs_in (service_group s)) running)
      end
  | _ => negb (existsb is_graph_notify running)
  end.

Inductive step : list activity -> list activity -> Prop :=
| step_begin running t :
    may_begin running t = true -> step running (t :: running)
| step_end before t after :
    step (before ++ t :: after) (before ++ after).

Inductive reachable : list activity -> Prop :=
| reachable_idle : reachable []
| reachable_step running running' :
    reachable running -> step running running' -> reachable running'.

(** The stream transitions of the specification's table. *)
Definition is_stream_transition (t : activity) : bool :=
  match t with
  | Handler stream_start_service_ | Handler stream_stop_service_ => true
  | Handler _ => false
  | GraphNotifyStart | GraphNotifyStop => true
  end.

Definition in_flight (p : activity -> bool) (running : list activity) : nat :=
  List.length (filter p running).

End Scheduling.

(** ** A camera to run the node on *)

Module DeviceCamera.

(** Modelled from the spec: the Camera Handle's streaming control,
    whose implementation is in another translation unit.  Start fails
    with [AlreadyStreaming] when active and with the device's code
    when the device rejects it, leaving the state as it was; stop
    succeeds as a no-op when already stopped, and a device error does
    not keep the state from becoming Stopped. *)
Record t : Type := mk {
  streaming : bool;
  start_rejection : option Z;
  stop_failure : option Z;
  AlreadyStreaming : Z
}.

Definition set_streaming (b : bool) (c : t) : t :=
  mk b (start_rejection c) (stop_failure c) (AlreadyStreaming c).

Definition device_start_streaming (buffer_count : Z) (c : t) : result unit * t :=
  if streaming c then (Err (AlreadyStreaming c), c)
  else
    match start_rejection c with
    | Some code => (Err code, c)
    | None => (Ok tt, set_streaming true c)
    end.

Definition device_stop_streaming (c : t) : result unit * t :=
  if streaming c then
    (match stop_failure c with
     | Some code => Err code
     | None => Ok tt
     end, set_streaming false c)
  else (Ok tt, c).

#[global] Instance interface : VimbaXCamera.Interface t := {
  VimbaXCamera.is_streaming := streaming;
  VimbaXCamera.start_streaming := device_start_streaming;
  VimbaXCamera.stop_streaming := device_stop_streaming
}.

(** A camera that does what it is asked. *)
Definition healthy : t := mk false None None (-1).

(** The same camera while it streams. *)
Definition active : t := mk true None None (-1).

(** A streaming camera whose device answers a stop with error [code]. *)
Definition stop_fails (code : Z) : t := mk true None (Some code) (-1).

(** Modelled from the spec: feature access on the Camera Handle, cut
    down to one integer feature, [Width]; every other call is answered
    with the device's "not found" code. *)
Definition not_found : Z := -3.

Definition feature_int_get (name : string) (c : t) : result Z * t :=
  if String.eqb name "Width"%string then (Ok 640, c) else (Err not_found, c).

Definition unknown {A : Type} (c : t) : result A * t := (Err not_found, c).

#[global] Instance features : VimbaXCamera.Features t Z := {
  VimbaXCamera.feature_int_get := feature_int_get;
  VimbaXCamera.feature_int_set := fun _ _ => unknown;
  VimbaXCamera.feature_int_info_get := fun _ => unknown;
  VimbaXCamera.feature_float_get := fun _ => unknown;
  VimbaXCamera.feature_float_set := fun _ _ => unknown;
  VimbaXCamera.feature_float_info_get := fun _ => unknown;
  VimbaXCamera.feature_string_get := fun _ => unknown;
  VimbaXCamera.feature_string_set := fun _ _ => unknown;
  VimbaXCamera.feature_string_info_get := fun _ => unknown;
  VimbaXCamera.feature_bool_get := fun _ => unknown;
  VimbaXCamera.feature_bool_set := fun _ _ => unknown;
  VimbaXCamera.feature_command_is_done := fun _ => unknown;
  VimbaXCamera.feature_command_run := fun _ => unknown;
  VimbaXCamera.feature_enum_get := fun _ => unknown;
  VimbaXCamera.feature_enum_set := fun _ _ => unknown;
  VimbaXCamera.feature_enum_info_get := fun _ => unknown;
  VimbaXCamera.feature_enum_as_int_get := fun _ _ => unknown;
  VimbaXCamera.feature_enum_as_string_get := fun _ _ => unknown;
  VimbaXCamera.feature_raw_get := fun _ => unknown;
  VimbaXCamera.feature_raw_set := fun _ _ => unknown;
  VimbaXCamera.feature_raw_info_get := fun _ => unknown;
  VimbaXCamera.feature_access_mode_get := fun _ => unknown;
  VimbaXCamera.feature_info_query_list := fun _ => unknown;
  VimbaXCamera.features_list_get := unknown;
  VimbaXCamera.settings_save := fun _ => unknown;
  VimbaXCamera.settings_load := fun _ => unknown;
  VimbaXCamera.camera_info_get := unknown
}.

End DeviceCamera.

(** ** The node when [make_shared] hands it out *)

(** The initialiser of the callback's [static int64_t lastFrameId]. *)
Definition lastFrameId_initial : Z := -1.

(** The camera is open, the monitor thread runs, the parameter has
    its declared default, nobody subscribes and no frame has been
    seen. *)
Definition make_shared {C : Type} (cam : C) : VimbaXCameraNode.Node :=
  VimbaXCameraNode.mkNode (Some cam) true false default_buffer_count 0 lastFrameId_initial.

(** ** Startup: [make_shared] and the [initialize_*] functions *)

(** [get_node_name]: ["vimbax_camera_" + std::to_string(getpid())]. *)
Definition get_node_name (pid : N) : string :=
  ("vimbax_camera_" ++ DecimalString.NilEmpty.string_of_uint (N.to_uint pid))%string.

Module Startup.

(** [VmbVersionInfo_t]. *)
Record VmbVersionInfo : Type := mkVersion {
  major : Z;
  minor : Z;
  patch : Z
}.

(** The messages of the [initialize_*] functions; the macro that
    prints each one gives its severity. *)
Inductive startup_log : Type :=
| InitializingApi                          (* INFO  "Initializing VimbaX API ..." *)
| StartingCameraNode                       (* INFO  "Starting VimbaX camera node ..." *)
| LoadingApi                               (* INFO  "Loading VimbaX api ..." *)
| VmbCLoadingFailed                        (* FATAL "VmbC loading failed!" *)
| ReadingVersionFailed                     (* WARN  "Reading VmbC version failed!" *)
| LoadedApiVersion (v : VmbVersionInfo)    (* INFO  "Successfully loaded VmbC API version %d.%d.%d" *)
| InitializingCamera                       (* INFO  "Initializing camera ..." *)
| FailedToOpenCamera                       (* FATAL "Failed to open camera" *)
| LoadingSettingsFailed (file : string) (code : Z)
                                           (* ERROR "Loading settings from file %s failed with %d" *)
| InitializingPublisher                    (* INFO  "Initializing publisher ..." *)
| InitializingServices                     (* INFO  "Initializing services ..." *)
| ServiceInitializationDone                (* INFO  " Service initialization done." *)
| InitializingGraphNotify                  (* INFO  "Initializing graph notify ..." *)
| InitializationDone.                      (* INFO  "Initialization done." *)

(** What startup does, in order.  [Teardown e] is an event of the
    destructor, which runs on the node [make_shared] gives up when it
    returns an empty pointer. *)
Inductive startup_event : Type :=
| CreateNode (name : string)                      (* helper::create_node *)
| GetInstance                                     (* VmbCAPI::get_instance() *)
| Shutdown                                        (* rclcpp::shutdown() *)
| OpenCamera (id : string)                        (* VimbaXCamera::open *)
| SettingsLoad (file : string)                    (* camera_->settings_load *)
| CreateCallbackGroup (g : Scheduling.callback_group)
| CreatePublisher                                 (* image_transport::create_publisher *)
| CreateService (s : Scheduling.service)
| StartGraphNotifyThread                          (* std::make_unique<std::thread> *)
| StartupLog (l : startup_log)
| Teardown (e : event).

(** The groups and the services in the order they are created. *)
Definition all_callback_groups : list Scheduling.callback_group :=
  [Scheduling.feature_callback_group_; Scheduling.settings_load_save_callback_group_;
   Scheduling.status_callback_group_; Scheduling.stream_start_stop_callback_group_].

Definition all_services : list Scheduling.service :=
  [Scheduling.feature_int_get_service_; Scheduling.feature_int_set_service_;
   Scheduling.feature_int_info_get_service_; Scheduling.feature_float_get_service_;
   Scheduling.feature_float_set_service_; Scheduling.feature_float_info_get_service_;
   Scheduling.feature_string_get_service_; Scheduling.feature_string_set_service_;
   Scheduling.feature_string_info_get_service_; Scheduling.feature_bool_get_service_;
   Scheduling.feature_bool_set_service_; Scheduling.feature_command_is_done_service_;
   Scheduling.feature_command_run_service_; Scheduling.feature_enum_get_service_;
   Scheduling.feature_enum_set_service_; Scheduling.feature_enum_info_get_service_;
   Scheduling.feature_enum_as_int_get_service_;
   Scheduling.feature_enum_as_string_get_service_;
   Scheduling.feature_raw_get_service_; Scheduling.feature_raw_set_service_;
   Scheduling.feature_raw_info_get_service_; Scheduling.feature_access_mode_get_service_;
   Scheduling.feature_info_query_service_; Scheduling.features_list_get_service_;
   Scheduling.settings_save_service_; Scheduling.settings_load_service_;
   Scheduling.status_service_;
   Scheduling.stream_start_service_; Scheduling.stream_stop_service_].

(** The values the declared parameters have once [initialize_parameters]
    has run: the declared defaults, or the node options' overrides. *)
Record Parameters : Type := mkParameters {
  camera_id : string;
  settings_file : string;
  parameter_buffer_count_value : Z
}.

Section Startup.

Context {C double : Type} {camera_interface : VimbaXCamera.Interface C}
        {camera_features : VimbaXCamera.Features C double}.

(** What the process finds when it starts: whether each thing it
    creates comes out non-null, the answer of the API's [VersionQuery]
    (a code, and the structure as the call leaves it), and the camera
    [VimbaXCamera::open] hands out for an id, if any. *)
Record Host : Type := mkHost {
  getpid : N;
  create_node : string -> bool;
  get_instance : option (VmbVersionInfo -> Z * VmbVersionInfo);
  open : string -> option C;
  create_callback_group : Scheduling.callback_group -> bool;
  create_publisher : bool;
  create_service : Scheduling.service -> bool
}.

(** [initialize_api]. *)
Definition initialize_api (host : Host) : bool * list startup_event :=
  let intro := [StartupLog InitializingApi; StartupLog StartingCameraNode;
                StartupLog LoadingApi; GetInstance] in
  match get_instance host with
  | None => (false, intro ++ [StartupLog VmbCLoadingFailed; Shutdown])
  | Some VersionQuery =>
      let (error, versionInfo) := VersionQuery (mkVersion 0 0 0) in
      (true,
       intro
       ++ (if error =? VmbErrorSuccess then [] else [StartupLog ReadingVersionFailed])
       ++ [StartupLog (LoadedApiVersion versionInfo)])
  end.

(** [initialize_camera]: the camera, when it opens; a settings file
    that does not load is reported and startup goes on. *)
Definition initialize_camera (host : Host) (params : Parameters)
    : option C * list startup_event :=
  let intro := [StartupLog InitializingCamera; OpenCamera (camera_id params)] in
  match open host (camera_id params) with
  | None => (None, intro ++ [StartupLog FailedToOpenCamera; Shutdown])
  | Some cam =>
      let settingsFile := settings_file params in
      if String.eqb settingsFile EmptyString then (Some cam, intro)
      else
        let (loadResult, cam') := VimbaXCamera.settings_load settingsFile cam in
        (Some cam',
         intro ++ [SettingsLoad settingsFile]
         ++ match loadResult with
            | Ok _ => []
            | Err code => [StartupLog (LoadingSettingsFailed settingsFile code)]
            end)
  end.

(** [initialize_callback_groups]: each group is created and tested in
    turn. *)
Fixpoint create_callback_groups (host : Host) (groups : list Scheduling.callback_group)
    : bool * list startup_event :=
  match groups with
  | [] => (true, [])
  | g :: rest =>
      if create_callback_group host g then
        let (ok, tr) := create_callback_groups host rest in
        (ok, CreateCallbackGroup g :: tr)
      else (false, [CreateCallbackGroup g])
  end.

Definition initialize_callback_groups (host : Host) : bool * list startup_event :=
  create_callback_groups host all_callback_groups.

(** [initialize_publisher]. *)
Definition initialize_publisher (host : Host) : bool * list startup_event :=
  (create_publisher host, [StartupLog InitializingPublisher; CreatePublisher]).

(** [initialize_services]: [CHK_SVC] returns [false] from the function
    at the first service that is null. *)
Fixpoint create_services (host : Host) (services : list Scheduling.service)
    : bool * list startup_event :=
  match services with
  | [] => (true, [])
  | s :: rest =>
      if create_service host s then
        let (ok, tr) := create_services host rest in
        (ok, CreateService s :: tr)
      else (false, [CreateService s])
  end.

Definition initialize_services (host : Host) : bool * list startup_event :=
  let (ok, tr) := create_services host all_services in
  (ok,
   StartupLog InitializingServices :: tr
   ++ (if ok then [StartupLog ServiceInitializationDone] else [])).

(** [initialize_graph_notify]: [std::make_unique] hands out a thread
    or throws, so the test that follows it never fails. *)
Definition initialize_graph_notify : bool * list startup_event :=
  (true, [StartupLog InitializingGraphNotify; StartGraphNotifyThread]).

(** The node [make_shared] starts from: no camera, no thread. *)
Definition blank (params : Parameters) : VimbaXCameraNode.Node (C := C) :=
  VimbaXCameraNode.mkNode None false false (parameter_buffer_count_value params) 0
    lastFrameId_initial.

(** [return {}]: the last pointer to the node goes, and its
    destructor runs.  The monitor thread is started last, so the
    node given up has none and there are no turns to wait for. *)
Definition abandon (nd : VimbaXCameraNode.Node (C := C)) : list startup_event :=
  match VimbaXCameraNode.destructor [] nd with
  | Some r => map Teardown (VimbaXCameraNode.trace_of r)
  | None => []
  end.

(** [make_shared], with the process's pid, parameters and host; named
    apart from the node it hands out on success.  [new] and
    [initialize_parameters] cannot answer with a failure. *)
Definition make_shared_on (host : Host) (params : Parameters)
    : option (VimbaXCameraNode.Node (C := C)) * list startup_event :=
  let name := get_node_name (getpid host) in
  if negb (create_node host name) then
    (None, [CreateNode name] ++ abandon (blank params))
  else
    let (api_ok, api_tr) := initialize_api host in
    if negb api_ok then
      (None, [CreateNode name] ++ api_tr ++ abandon (blank params))
    else
      let (camera, camera_tr) := initialize_camera host params in
      match camera with
      | None =>
          (None, [CreateNode name] ++ api_tr ++ camera_tr ++ abandon (blank params))
      | Some cam =>
          let nd := VimbaXCameraNode.set_camera (Some cam) (blank params) in
          let (groups_ok, groups_tr) := initialize_callback_groups host in
          if negb groups_ok then
            (None, [CreateNode name] ++ api_tr ++ camera_tr ++ groups_tr ++ abandon nd)
          else
            let (publisher_ok, publisher_tr) := initialize_publisher host in
            if negb publisher_ok then
              (None,
               [CreateNode name] ++ api_tr ++ camera_tr ++ groups_tr ++ publisher_tr
               ++ abandon nd)
            else
              let (services_ok, services_tr) := initialize_services host in
              if negb services_ok then
                (None,
                 [CreateNode name] ++ api_tr ++ camera_tr ++ groups_tr ++ publisher_tr
                 ++ services_tr ++ abandon nd)
              else
                let (graph_ok, graph_tr) := initialize_graph_notify in
                if negb graph_ok then
                  (None,
                   [CreateNode name] ++ api_tr ++ camera_tr ++ groups_tr ++ publisher_tr
                   ++ services_tr ++ graph_tr ++ abandon nd)
                else
                  (Some (VimbaXCameraNode.mkNode (Some cam) true false
                           (parameter_buffer_count_value params) 0 lastFrameId_initial),
                   [CreateNode name] ++ api_tr ++ camera_tr ++ groups_tr ++ publisher_tr
                   ++ services_tr ++ graph_tr ++ [StartupLog InitializationDone])
      end.

End Startup.

End Startup.

(** * Properties *)

Import VimbaXCameraNode.

(** The frames of a list, each published without an exception. *)
Definition published (frames : list Frame) : list (Frame * publish_outcome) :=
  map (fun frame => (frame, PublishReturns)) frames.

(** Ids that go up by one from [last]. *)
Fixpoint gap_free (last : Z) (frames : list Frame) : Prop :=
  match frames with
  | [] => True
  | frame :: rest => get_frame_id frame = last + 1 /\ gap_free (get_frame_id frame) rest
  end.

Fixpoint last_id (last : Z) (frames : list Frame) : Z :=
  match frames with
  | [] => last
  | frame :: rest => last_id (get_frame_id frame) rest
  end.

(** Whether the node's camera streams; [None] without a camera. *)
Definition streaming_of {C} `{VimbaXCamera.Interface C} (nd : Node) : option bool :=
  option_map VimbaXCamera.is_streaming (camera_ nd).

(** Nodes to run the properties on: the node [make_shared] hands out
    for the camera [cam], with [n] subscribers. *)
Definition subscribed {C : Type} (n : N) (cam : C) : Node :=
  set_num_subscribers n (make_shared cam).

(** The same node after it has seen frame [id]. *)
Definition seen {C : Type} (id : Z) (cam : C) : Node :=
  set_lastFrameId id (make_shared cam).

(** A frame with id [id] whose requeue succeeds, and a list of them. *)
Definition frame_with_id (id : Z) : Frame := mkFrame id VmbErrorSuccess.



(** A response as a handler receives it: no error written yet. *)
Definition new_response {B : Type} (b : B) : msgs.Response B := msgs.mkResponse 0 b.

(** A request to set [buffer_count] to [v]. *)
Definition buffer_count_request (v : Z) : rclcpp_Parameter :=
  mkParameter parameter_buffer_count (IntegerValue v).

(** Whether a request names [buffer_count]. *)
Definition names_buffer_count (params : list rclcpp_Parameter) : bool :=
  existsb (fun param => String.eqb (get_name param) parameter_buffer_count) params.

Definition not_supported_while_streaming : SetParametersResult :=
  mkSetParametersResult false "Buffer count change not supported while streaming"%string.

(** What the loop of [feature_info_query] makes of one element. *)
Definition to_FeatureInfo (data : VimbaXCamera.feature_info) : msgs.FeatureInfo :=
  copy_feature_info data default_FeatureInfo.

(** Whether the node has a camera that streams. *)
Definition still_streaming {C} `{VimbaXCamera.Interface C} (nd : Node) : bool :=
  match streaming_of nd with
  | Some b => b
  | None => false
  end.

(** What a turn of the graph monitor can leave in the trace. *)
Definition monitor_event (e : event) : bool := is_transition e || is_log INFO e.

(** The frames a run reports missing, added up. *)
Fixpoint missing_total (tr : list event) : Z :=
  match tr with
  | [] => 0
  | Log WARN (FramesMissing n) :: rest => n + missing_total rest
  | _ :: rest => missing_total rest
  end.

(** Ids that go up, by steps an [int64_t] holds. *)
Fixpoint increasing (last : Z) (frames : list Frame) : Prop :=
  match frames with
  | [] => True
  | frame :: rest =>
      last < get_frame_id frame
      /\ in_int64 (get_frame_id frame - last)
      /\ increasing (get_frame_id frame) rest
  end.

(** The publications and requeues of a trace. *)
Definition is_relay (e : event) : bool :=
  match e with
  | Publish _ | Queue _ => true
  | _ => false
  end.

(** A camera whose device rejects every start with [code]. *)
Definition rejecting (code : Z) : DeviceCamera.t := DeviceCamera.mk false (Some code) None (-1).

(** A request to set a parameter other than [buffer_count]. *)
Definition camera_id_request (id : string) : rclcpp_Parameter :=
  mkParameter "camera_id"%string (StringValue id).

(** A node whose startup stopped before the camera was opened: the
    node [make_shared] starts from, with the default buffer count. *)
Definition unopened {C : Type} : Node (C := C) :=
  mkNode None false false default_buffer_count 0 lastFrameId_initial.

(** Events of startup to look for. *)
Definition is_shutdown (e : Startup.startup_event) : bool :=
  match e with Startup.Shutdown => true | _ => false end.

Definition is_teardown (e : Startup.startup_event) : bool :=
  match e with Startup.Teardown _ => true | _ => false end.

Definition is_thread_start (e : Startup.startup_event) : bool :=
  match e with Startup.StartGraphNotifyThread => true | _ => false end.

Definition is_settings_load (e : Startup.startup_event) : bool :=
  match e with Startup.SettingsLoad _ => true | _ => false end.

(** Everything startup creates comes out non-null. *)
Definition all_created {C : Type} (host : Startup.Host (C := C))
    (params : Startup.Parameters) : Prop :=
  Startup.create_node host (get_node_name (Startup.getpid host)) = true
  /\ Startup.get_instance host <> None
  /\ Startup.open host (Startup.camera_id params) <> None
  /\ (forall g, Startup.create_callback_group host g = true)
  /\ Startup.create_publisher host = true
  /\ (forall s, Startup.create_service host s = true).

(** The camera as [initialize_camera] leaves it: opened, and with the
    settings file loaded when one is named. *)
Definition opened {C double : Type} `{VimbaXCamera.Features C double}
    (host : Startup.Host (C := C)) (params : Startup.Parameters) : option C :=
  match Startup.open host (Startup.camera_id params) with
  | None => None
  | Some cam =>
      Some (if String.eqb (Startup.settings_file params) EmptyString then cam
            else snd (VimbaXCamera.settings_load (Startup.settings_file params) cam))
  end.

(** A host on which everything is created, with a camera for every
    id, and two sets of parameter values. *)
Definition obliging : Startup.Host (C := DeviceCamera.t) :=
  Startup.mkHost 4242 (fun _ => true)
    (Some (fun _ => (VmbErrorSuccess, Startup.mkVersion 1 0 5)))
    (fun _ => Some DeviceCamera.healthy) (fun _ => true) true (fun _ => true).

(** The same host, but the publisher comes out invalid. *)
Definition without_publisher : Startup.Host (C := DeviceCamera.t) :=
  Startup.mkHost 4242 (fun _ => true)
    (Some (fun _ => (VmbErrorSuccess, Startup.mkVersion 1 0 5)))
    (fun _ => Some DeviceCamera.active) (fun _ => true) false (fun _ => true).

(** A host on which the third service, [feature_int_info_get], comes
    out null. *)
Definition third_service_fails : Startup.Host (C := DeviceCamera.t) :=
  Startup.mkHost 4242 (fun _ => true)
    (Some (fun _ => (VmbErrorSuccess, Startup.mkVersion 1 0 5)))
    (fun _ => Some DeviceCamera.healthy) (fun _ => true) true
    (fun s => match s with
              | Scheduling.feature_int_info_get_service_ => false
              | _ => true
              end).

Definition plain_parameters : Startup.Parameters :=
  Startup.mkParameters "DEV_1"%string EmptyString default_buffer_count.

Definition parameters_with_settings : Startup.Parameters :=
  Startup.mkParameters "DEV_1"%string "missing.xml"%string default_buffer_count.

(** A camera answer for [status] and one for [feature_info_query], and
    feature access that gives them: the address is reported, the MAC
    is not. *)
Definition sample_info : VimbaXCamera.Info Z :=
  VimbaXCamera.mk_Info Z "Alvium"%string "1800 U-500c"%string "1.2.3"%string
    "DEV_1"%string "left"%string "SN0042"%string "USB"%string "VimbaUSBTL"%string
    true 640 480 30 "Mono8"%string "Off"%string "Software"%string
    (Some "192.168.0.2"%string) None.

Definition sample_feature : VimbaXCamera.feature_info :=
  VimbaXCamera.mk_feature_info "Width"%string "/ImageFormat"%string "Width"%string
    "Standard"%string "px"%string 2
    (VimbaXCamera.mk_feature_flags false true true false true) 250.

Definition reporting : VimbaXCamera.Features DeviceCamera.t Z := {|
  VimbaXCamera.feature_int_get := DeviceCamera.feature_int_get;
  VimbaXCamera.feature_int_set := fun _ _ => DeviceCamera.unknown;
  VimbaXCamera.feature_int_info_get := fun _ => DeviceCamera.unknown;
  VimbaXCamera.feature_float_get := fun _ => DeviceCamera.unknown;
  VimbaXCamera.feature_float_set := fun _ _ => DeviceCamera.unknown;
  VimbaXCamera.feature_float_info_get := fun _ => DeviceCamera.unknown;
  VimbaXCamera.feature_string_get := fun _ => DeviceCamera.unknown;
  VimbaXCamera.feature_string_set := fun _ _ => DeviceCamera.unknown;
  VimbaXCamera.feature_string_info_get := fun _ => DeviceCamera.unknown;
  VimbaXCamera.feature_bool_get := fun _ => DeviceCamera.unknown;
  VimbaXCamera.feature_bool_set := fun _ _ => DeviceCamera.unknown;
  VimbaXCamera.feature_command_is_done := fun _ => DeviceCamera.unknown;
  VimbaXCamera.feature_command_run := fun _ => DeviceCamera.unknown;
  VimbaXCamera.feature_enum_get := fun _ => DeviceCamera.unknown;
  VimbaXCamera.feature_enum_set := fun _ _ => DeviceCamera.unknown;
  VimbaXCamera.feature_enum_info_get := fun _ => DeviceCamera.unknown;
  VimbaXCamera.feature_enum_as_int_get := fun _ _ => DeviceCamera.unknown;
  VimbaXCamera.feature_enum_as_string_get := fun _ _ => DeviceCamera.unknown;
  VimbaXCamera.feature_raw_get := fun _ => DeviceCamera.unknown;
  VimbaXCamera.feature_raw_set := fun _ _ => DeviceCamera.unknown;
  VimbaXCamera.feature_raw_info_get := fun _ => DeviceCamera.unknown;
  VimbaXCamera.feature_access_mode_get := fun _ => DeviceCamera.unknown;
  VimbaXCamera.feature_info_query_list := fun _ c => (Ok [sample_feature], c);
  VimbaXCamera.features_list_get := DeviceCamera.unknown;
  VimbaXCamera.settings_save := fun _ => DeviceCamera.unknown;
  VimbaXCamera.settings_load := fun _ => DeviceCamera.unknown;
  VimbaXCamera.camera_info_get := fun c => (Ok sample_info, c)
|}.

(** A [status] response before the handler has written to it. *)
Definition unwritten_status : msgs.Status Z :=
  msgs.mkStatus EmptyString EmptyString EmptyString EmptyString EmptyString EmptyString
    EmptyString EmptyString false 0 0 0 EmptyString EmptyString EmptyString
    "no address"%string "no mac"%string.

(** A [FeatureInfo] left in a response from before. *)
Definition stale_FeatureInfo : msgs.FeatureInfo :=
  msgs.mkFeatureInfo "Stale"%string "stale"%string "stale"%string "stale"%string
    "stale"%string 9 (msgs.mkFeatureFlags true true true true true) 9.

(** The services by name: the two of settings persistence, the two
    of stream control; all the others are feature access and status. *)
Definition is_settings_service (s : Scheduling.service) : bool :=
  match s with
  | Scheduling.settings_save_service_ | Scheduling.settings_load_service_ => true
  | _ => false
  end.

Definition is_stream_service (s : Scheduling.service) : bool :=
  match s with
  | Scheduling.stream_start_service_ | Scheduling.stream_stop_service_ => true
  | _ => false
  end.

Definition is_settings_handler (t : Scheduling.activity) : bool :=
  match t with
  | Scheduling.Handler s => is_settings_service s
  | _ => false
  end.

Section Helpers.

Context {C : Type} {camera_interface : VimbaXCamera.Interface C}.

Implicit Types (nd : Node (C := C)) (cam : C).

Lemma set_camera_same nd cam : camera_ nd = Some cam -> set_camera (Some cam) nd = nd.
Proof. destruct nd; simpl; intros ->; reflexivity. Qed.

Lemma wrap64_id z : in_int64 z -> wrap64 z = z.
Proof.
  unfold in_int64, int64_min, int64_max, wrap64; intros Hz.
  rewrite Z.mod_small by lia. lia.
Qed.

Lemma positive_iff_not_zero (n : N) : (0 <? n)%N = negb (n =? 0)%N.
Proof.
  destruct (N.eqb_spec n 0) as [-> | Hn]; simpl.
  - reflexivity.
  - apply N.ltb_lt. lia.
Qed.

End Helpers.

Ltac run_callback := unfold frame_callback, when, bind, ret, emit, gets, modify,
  trace_of, node_of, value_of in *.

Ltac run := unfold graph_notify_iteration, start_streaming, stop_streaming,
  camera_start_streaming, camera_stop_streaming, camera_is_streaming,
  on_camera, when, bind, ret, emit, gets, modify, trace_of, node_of, value_of.

(** Once the flag is set the loop makes no further turn, and a wake
    without a graph change does nothing. *)
Lemma graph_notify_loop_stops {C : Type} `{VimbaXCamera.Interface C}
    (nd : Node) (wakes : list bool) :
  stop_threads_ nd = true ->
  graph_notify_loop wakes nd = Some (tt, nd, []).
Proof.
  intros Hflag. destruct wakes as [| changed rest]; [reflexivity | ].
  cbn [graph_notify_loop]. unfold bind, gets. rewrite Hflag. reflexivity.
Qed.

Lemma unchanged_wake_does_nothing {C : Type} `{VimbaXCamera.Interface C} (nd : Node) :
  graph_notify_iteration false nd = Some (tt, nd, []).
Proof. reflexivity. Qed.

Lemma settled_wake_requests_nothing {C : Type} `{VimbaXCamera.Interface C}
    (nd : Node) (cam : C) :
  camera_ nd = Some cam ->
  VimbaXCamera.is_streaming cam = (0 <? num_subscribers nd)%N ->
  graph_notify_iteration true nd = Some (tt, nd, []).
Proof.
  intros Hcam Hs. rewrite positive_iff_not_zero in Hs.
  destruct (num_subscribers nd =? 0)%N eqn:En; cbn in Hs;
    run;
    repeat (rewrite ?positive_iff_not_zero, ?En, ?Hcam, ?Hs; cbn -[N.eqb]);
    rewrite (set_camera_same nd cam Hcam); reflexivity.
Qed.

(** C1: on a wake of the graph monitor with a graph change, one start
    is requested when there are subscribers and the camera is not
    streaming, one stop when there are none and it is streaming, and
    nothing otherwise; so when the wake has left the camera streaming
    exactly when there are subscribers, the next wake that observes
    the same count requests nothing, and neither does any wake that
    finds the node in such a state. *)
Theorem graph_wake_requests {C : Type} `{VimbaXCamera.Interface C}
    (nd : Node) (cam : C) :
  camera_ nd = Some cam ->
  (exists r,
     graph_notify_iteration true nd = Some r
     /\ filter is_transition (trace_of r)
        = (if (0 <? num_subscribers nd)%N && negb (VimbaXCamera.is_streaming cam)
           then [CameraStartStreaming (buffer_count nd)]
           else if (num_subscribers nd =? 0)%N && VimbaXCamera.is_streaming cam
                then [CameraStopStreaming]
                else [])
     /\ num_subscribers (node_of r) = num_subscribers nd
     /\ (streaming_of (node_of r) = Some (0 <? num_subscribers nd)%N ->
         graph_notify_iteration true (node_of r) = Some (tt, node_of r, [])))
  /\ (streaming_of nd = Some (0 <? num_subscribers nd)%N ->
      graph_notify_iteration true nd = Some (tt, nd, [])).
Proof.
  intros Hcam. split.
  - assert (Hnext : forall nd' cam',
               camera_ nd' = Some cam' ->
               num_subscribers nd' = num_subscribers nd ->
               streaming_of nd' = Some (0 <? num_subscribers nd)%N ->
               graph_notify_iteration true nd' = Some (tt, nd', [])).
    { intros nd' cam' Hcam' Hsame Hsettled.
      unfold streaming_of in Hsettled. rewrite Hcam' in Hsettled.
      injection Hsettled as Hsettled. rewrite <- Hsame in Hsettled.
      exact (settled_wake_requests_nothing nd' cam' Hcam' Hsettled). }
    assert (Hrun : exists r cam',
               graph_notify_iteration true nd = Some r
               /\ filter is_transition (trace_of r)
                  = (if (0 <? num_subscribers nd)%N
                        && negb (VimbaXCamera.is_streaming cam)
                     then [CameraStartStreaming (buffer_count nd)]
                     else if (num_subscribers nd =? 0)%N
                             && VimbaXCamera.is_streaming cam
                          then [CameraStopStreaming]
                          else [])
               /\ num_subscribers (node_of r) = num_subscribers nd
               /\ camera_ (node_of r) = Some cam').
    { destruct (num_subscribers nd =? 0)%N eqn:En;
        destruct (VimbaXCamera.is_streaming cam) eqn:Hs;
        destruct (VimbaXCamera.stop_streaming cam) as [res1 cam1] eqn:Hstop;
        destruct (VimbaXCamera.start_streaming (buffer_count nd) cam)
          as [res2 cam2] eqn:Hstart;
        run;
        repeat (rewrite ?positive_iff_not_zero, ?En, ?Hcam, ?Hs, ?Hstop, ?Hstart;
                cbn -[N.eqb]);
        do 2 eexists; repeat split; reflexivity. }
    destruct Hrun as [r [cam' [Hr [Htr [Hsame Hcam']]]]].
    exists r. repeat split; try assumption.
    intros Hsettled. exact (Hnext (node_of r) cam' Hcam' Hsame Hsettled).
  - unfold streaming_of. rewrite Hcam. cbn. intros Hs. injection Hs as Hs.
    exact (settled_wake_requests_nothing nd cam Hcam Hs).
Qed.

Lemma graph_wake_requests_witness :
  camera_ (subscribed 1 DeviceCamera.healthy) = Some DeviceCamera.healthy
  /\ exists r,
       graph_notify_iteration true (subscribed 1 DeviceCamera.healthy) = Some r
       /\ filter is_transition (trace_of r) = [CameraStartStreaming default_buffer_count].
Proof.
  split; [reflexivity | ].
  destruct (graph_wake_requests (subscribed 1 DeviceCamera.healthy)
              DeviceCamera.healthy eq_refl) as [[r [Hr [Ht _]]] _].
  exists r. split; [exact Hr | exact Ht].
Defined.

(** C3, as stated, fails: when publication throws, the callback is left
    before [frame->queue()] and the buffer is not requeued. *)
Lemma frame_not_requeued_when_publish_throws :
  exists r,
    frame_callback (frame_with_id 5) PublishThrows (seen 4 DeviceCamera.healthy) = Some r
    /\ value_of r = Thrown
    /\ List.length (filter is_queue (trace_of r)) <> 1%nat.
Proof.
  eexists. split; [reflexivity | ]. split; [reflexivity | ].
  simpl. discriminate.
Qed.

(** C3, amended: when publication returns, the frame's buffer is
    requeued exactly once, the callback returns whatever the requeue
    answered, and a failed requeue adds one error log and nothing
    else; when publication throws, the callback is left by the
    exception without a requeue. *)
Theorem frame_requeued_once {C : Type} (nd : Node (C := C)) (frame : Frame) :
  (exists r,
     frame_callback frame PublishReturns nd = Some r
     /\ value_of r = Returned
     /\ filter is_queue (trace_of r) = [Queue (get_frame_id frame)]
     /\ filter (is_log ERROR) (trace_of r)
        = (if queue frame =? VmbErrorSuccess then []
           else [Log ERROR (FrameRequeueFailed (queue frame))])
     /\ node_of r = set_lastFrameId (get_frame_id frame) nd)
  /\ (exists r,
        frame_callback frame PublishThrows nd = Some r
        /\ value_of r = Thrown
        /\ filter is_queue (trace_of r) = []).
Proof.
  split; run_callback;
    destruct (1 <? sub64 (get_frame_id frame) (lastFrameId nd)); cbn.
  - destruct (queue frame =? VmbErrorSuccess); cbn;
      eexists; repeat split; reflexivity.
  - destruct (queue frame =? VmbErrorSuccess); cbn;
      eexists; repeat split; reflexivity.
  - eexists; repeat split; reflexivity.
  - eexists; repeat split; reflexivity.
Qed.

Lemma frame_callback_gap {C : Type} (nd : Node (C := C)) frame pub k :
  k = get_frame_id frame - lastFrameId nd ->
  in_int64 k ->
  exists r,
    frame_callback frame pub nd = Some r
    /\ lastFrameId (node_of r) = get_frame_id frame
    /\ filter is_missing (trace_of r)
       = if 1 <? k then [Log WARN (FramesMissing (k - 1))] else [].
Proof.
  intros Hk Hin. run_callback. unfold sub64. rewrite <- Hk.
  rewrite (wrap64_id k Hin).
  destruct (Z.ltb_spec 1 k) as [Hgap | Hgap]; cbn.
  - rewrite wrap64_id
      by (unfold in_int64, int64_min, int64_max in *; lia).
    destruct pub; cbn.
    + destruct (queue frame =? VmbErrorSuccess); cbn;
        eexists; repeat split; reflexivity.
    + eexists; repeat split; reflexivity.
  - destruct pub; cbn.
    + destruct (queue frame =? VmbErrorSuccess); cbn;
        eexists; repeat split; reflexivity.
    + eexists; repeat split; reflexivity.
Qed.

Lemma frame_callback_updates {C : Type} (nd : Node (C := C)) frame pub :
  exists r,
    frame_callback frame pub nd = Some r
    /\ lastFrameId (node_of r) = get_frame_id frame
    /\ value_of r = match pub with PublishReturns => Returned | PublishThrows => Thrown end.
Proof.
  run_callback.
  destruct (1 <? sub64 (get_frame_id frame) (lastFrameId nd)); cbn;
    destruct pub; cbn;
    try (destruct (queue frame =? VmbErrorSuccess); cbn);
    eexists; repeat split; reflexivity.
Qed.

Lemma deliver_gap_free {C : Type} (frames : list Frame) :
  forall nd : Node (C := C),
    gap_free (lastFrameId nd) frames ->
    exists r,
      deliver (published frames) nd = Some r
      /\ filter is_missing (trace_of r) = []
      /\ lastFrameId (node_of r) = last_id (lastFrameId nd) frames.
Proof.
  induction frames as [| frame rest IH]; intros nd Hfree.
  - eexists. repeat split; reflexivity.
  - destruct Hfree as [Hnext Hrest].
    destruct (frame_callback_gap nd frame PublishReturns 1) as [r1 [Hr1 [Hlast Hdiag]]].
    + lia.
    + unfold in_int64, int64_min, int64_max. lia.
    + destruct (frame_callback_updates nd frame PublishReturns) as [r1' [Hr1' [_ Hval]]].
      rewrite Hr1 in Hr1'. injection Hr1' as <-.
      destruct r1 as [[c nd1] tr1]. unfold node_of, trace_of, value_of in *.
      cbn in Hlast, Hdiag, Hval. subst c.
      rewrite <- Hlast in Hrest.
      destruct (IH nd1 Hrest) as [r2 [Hr2 [Hdiag2 Hlast2]]].
      destruct r2 as [[c2 nd2] tr2]. cbn in Hdiag2, Hlast2.
      exists (c2, nd2, tr1 ++ tr2).
      cbn [published map deliver]. unfold bind. rewrite Hr1.
      fold (published rest). rewrite Hr2. cbn.
      repeat split.
      * rewrite filter_app, Hdiag, Hdiag2. reflexivity.
      * rewrite Hlast2, Hlast. reflexivity.
Qed.

(** C4: a frame whose id is [k] above the last one seen produces no
    missing-frame diagnostic when [k <= 1] and exactly one, reporting
    [k - 1] frames, when [k > 1]; ids that go up by one produce none
    over a whole run; and the last-seen id becomes the frame's id in
    every case. *)
Theorem gap_detection {C : Type} (nd : Node (C := C)) :
  (forall frame pub,
      exists r,
        frame_callback frame pub nd = Some r
        /\ lastFrameId (node_of r) = get_frame_id frame)
  /\ (forall frame pub k,
        k = get_frame_id frame - lastFrameId nd ->
        in_int64 k ->
        exists r,
          frame_callback frame pub nd = Some r
          /\ filter is_missing (trace_of r)
             = if 1 <? k then [Log WARN (FramesMissing (k - 1))] else [])
  /\ (forall frames,
        gap_free (lastFrameId nd) frames ->
        exists r,
          deliver (published frames) nd = Some r
          /\ filter is_missing (trace_of r) = []
          /\ lastFrameId (node_of r) = last_id (lastFrameId nd) frames).
Proof.
  split; [ | split ].
  - intros frame pub.
    destruct (frame_callback_updates nd frame pub) as [r [Hr [Hlast _]]].
    exists r. split; assumption.
  - intros frame pub k Hk Hin.
    destruct (frame_callback_gap nd frame pub k Hk Hin) as [r [Hr [_ Hdiag]]].
    exists r. split; assumption.
  - intros frames. apply deliver_gap_free.
Qed.

Lemma gap_detection_witness :
  (5 = get_frame_id (frame_with_id 9) - lastFrameId (seen 4 DeviceCamera.healthy)
   /\ in_int64 5
   /\ exists r,
        frame_callback (frame_with_id 9) PublishReturns (seen 4 DeviceCamera.healthy)
        = Some r
        /\ filter is_missing (trace_of r) = [Log WARN (FramesMissing 4)])
  /\ (gap_free (lastFrameId (seen 4 DeviceCamera.healthy))
        [frame_with_id 5; frame_with_id 6]
      /\ exists r,
           deliver (published [frame_with_id 5; frame_with_id 6])
                   (seen 4 DeviceCamera.healthy) = Some r
           /\ filter is_missing (trace_of r) = []
           /\ lastFrameId (node_of r) = 6).
Proof.
  assert (H5 : in_int64 5) by (unfold in_int64, int64_min, int64_max; lia).
  assert (Hfree : gap_free (lastFrameId (seen 4 DeviceCamera.healthy))
                    [frame_with_id 5; frame_with_id 6])
    by (simpl; repeat split; reflexivity).
  destruct (gap_detection (seen 4 DeviceCamera.healthy)) as [_ [Hjump Hrun]].
  split.
  - split; [reflexivity | split; [exact H5 | ]].
    exact (Hjump (frame_with_id 9) PublishReturns 5 eq_refl H5).
  - split; [exact Hfree | exact (Hrun _ Hfree)].
Defined.

(** C10: the last-seen id starts at the constant [-1], so the first
    frame delivered after process start produces the diagnostic
    "k frames missing" when its id [k] is at least 1, and none when
    its id is 0. *)
Theorem first_frame_diagnostic {C : Type} (nd : Node (C := C)) (frame : Frame)
    (pub : publish_outcome) :
  lastFrameId nd = lastFrameId_initial ->
  0 <= get_frame_id frame < int64_max ->
  lastFrameId_initial = -1
  /\ exists r,
       frame_callback frame pub nd = Some r
       /\ filter is_missing (trace_of r)
          = if get_frame_id frame =? 0 then []
            else [Log WARN (FramesMissing (get_frame_id frame))].
Proof.
  intros Hfirst Hid. split; [reflexivity | ].
  destruct (frame_callback_gap nd frame pub (get_frame_id frame + 1))
    as [r [Hr [_ Hdiag]]].
  - rewrite Hfirst. unfold lastFrameId_initial. lia.
  - unfold in_int64, int64_min, int64_max in *. lia.
  - exists r. split; [exact Hr | ]. rewrite Hdiag.
    destruct (Z.eqb_spec (get_frame_id frame) 0) as [Hz | Hz].
    + rewrite Hz. reflexivity.
    + replace (1 <? get_frame_id frame + 1) with true
        by (symmetry; apply Z.ltb_lt; lia).
      replace (get_frame_id frame + 1 - 1) with (get_frame_id frame) by lia.
      reflexivity.
Qed.

Lemma first_frame_diagnostic_witness :
  lastFrameId (make_shared DeviceCamera.healthy) = lastFrameId_initial
  /\ 0 <= get_frame_id (frame_with_id 3) < int64_max
  /\ exists r,
       frame_callback (frame_with_id 3) PublishReturns (make_shared DeviceCamera.healthy)
       = Some r
       /\ filter is_missing (trace_of r) = [Log WARN (FramesMissing 3)].
Proof.
  assert (Hid : 0 <= get_frame_id (frame_with_id 3) < int64_max)
    by (unfold int64_max; simpl; lia).
  split; [reflexivity | split; [exact Hid | ]].
  exact (proj2 (first_frame_diagnostic (make_shared DeviceCamera.healthy)
                  (frame_with_id 3) PublishReturns eq_refl Hid)).
Defined.




(** C6, as stated, fails: when the camera answers the stop with a
    device error, the [stream_stop] response carries that error. *)
Lemma stream_stop_reports_device_error :
  exists r,
    stream_stop_service (new_response tt)
                        (make_shared (DeviceCamera.stop_fails (-5))) = Some r
    /\ msgs.error (value_of r) = -5
    /\ msgs.error (value_of r) <> msgs.error (new_response tt).
Proof.
  eexists. split; [reflexivity | ]. split; [reflexivity | discriminate].
Qed.

(** C6, amended: the [stream_stop] handler makes one stop call on the
    camera and forwards its result, so a device error is the
    response's error and a success leaves the response without one;
    the node's own [stop_streaming], which the graph monitor calls,
    drops the camera's result and logs "Stream stopped" either way. *)
Theorem stream_stop_forwards_result {C : Type} `{VimbaXCamera.Interface C}
    (nd : Node) (cam : C) (response : msgs.Response Datatypes.unit) :
  camera_ nd = Some cam ->
  (exists r,
     stream_stop_service response nd = Some r
     /\ trace_of r = [CameraStopStreaming]
     /\ msgs.error (value_of r)
        = match fst (VimbaXCamera.stop_streaming cam) with
          | Err code => code
          | Ok _ => msgs.error response
          end
     /\ camera_ (node_of r) = Some (snd (VimbaXCamera.stop_streaming cam)))
  /\ (exists r,
        stop_streaming nd = Some r
        /\ trace_of r = [CameraStopStreaming; Log INFO StreamStopped]
        /\ camera_ (node_of r) = Some (snd (VimbaXCamera.stop_streaming cam))).
Proof.
  intros Hcam.
  destruct (VimbaXCamera.stop_streaming cam) as [res cam1] eqn:Hstop.
  split.
  - unfold stream_stop_service, respond. run. rewrite Hcam, Hstop. cbn.
    destruct res; eexists; repeat split; reflexivity.
  - run. rewrite Hcam, Hstop. cbn. eexists; repeat split; reflexivity.
Qed.

Lemma stream_stop_forwards_result_witness :
  camera_ (make_shared (DeviceCamera.stop_fails (-5))) = Some (DeviceCamera.stop_fails (-5))
  /\ exists r,
       stream_stop_service (new_response tt)
                           (make_shared (DeviceCamera.stop_fails (-5))) = Some r
       /\ trace_of r = [CameraStopStreaming]
       /\ msgs.error (value_of r) = -5.
Proof.
  split; [reflexivity | ].
  destruct (stream_stop_forwards_result
              (make_shared (DeviceCamera.stop_fails (-5)))
              (DeviceCamera.stop_fails (-5)) (new_response tt) eq_refl)
    as [[r [Hr [Htr [Herr _]]]] _].
  exists r. split; [exact Hr | split; [exact Htr | exact Herr]].
Defined.

Lemma on_set_parameters_streaming {C : Type} `{VimbaXCamera.Interface C}
    (nd : Node) (cam : C) (params : list rclcpp_Parameter) :
  camera_ nd = Some cam ->
  VimbaXCamera.is_streaming cam = true ->
  on_set_parameters params nd
  = Some (if names_buffer_count params then not_supported_while_streaming
          else mkSetParametersResult true EmptyString, nd, []).
Proof.
  intros Hcam Hs. induction params as [| param rest IH]; [reflexivity | ].
  cbn [on_set_parameters names_buffer_count existsb].
  destruct (String.eqb (get_name param) parameter_buffer_count); cbn [orb].
  - run. rewrite Hcam, Hs. cbn. rewrite (set_camera_same nd cam Hcam). reflexivity.
  - exact IH.
Qed.

Lemma on_set_parameters_stopped {C : Type} `{VimbaXCamera.Interface C}
    (nd : Node) (cam : C) (params : list rclcpp_Parameter) :
  camera_ nd = Some cam ->
  VimbaXCamera.is_streaming cam = false ->
  on_set_parameters params nd = Some (mkSetParametersResult true EmptyString, nd, []).
Proof.
  intros Hcam Hs. induction params as [| param rest IH]; [reflexivity | ].
  cbn [on_set_parameters].
  destruct (String.eqb (get_name param) parameter_buffer_count).
  - run. rewrite Hcam, Hs. cbn. rewrite (set_camera_same nd cam Hcam).
    rewrite IH. reflexivity.
  - exact IH.
Qed.

(** C7: while the camera streams, a request that names [buffer_count]
    is answered "Buffer count change not supported while streaming"
    and the parameter keeps its value; while it does not stream, the
    callback accepts every request, a [buffer_count] of the declared
    range is stored, and the next [start_streaming] starts the camera
    with the stored value. *)
Theorem buffer_count_change {C : Type} `{VimbaXCamera.Interface C}
    (nd : Node) (cam : C) :
  camera_ nd = Some cam ->
  (VimbaXCamera.is_streaming cam = true ->
   (forall params,
       names_buffer_count params = true ->
       on_set_parameters params nd = Some (not_supported_while_streaming, nd, []))
   /\ (forall v,
         in_range bufferCountRange v = true ->
         set_parameter_buffer_count v nd
         = Some (Refused not_supported_while_streaming, nd, [])))
  /\ (VimbaXCamera.is_streaming cam = false ->
      (forall params,
          exists r, on_set_parameters params nd = Some r
                    /\ successful (value_of r) = true)
      /\ (forall v,
            in_range bufferCountRange v = true ->
            exists r1,
              set_parameter_buffer_count v nd = Some r1
              /\ value_of r1 = Stored
              /\ buffer_count (node_of r1) = v
              /\ exists r2,
                   start_streaming (node_of r1) = Some r2
                   /\ filter is_start (trace_of r2) = [CameraStartStreaming v])).
Proof.
  intros Hcam. split; intros Hs; split.
  - intros params Hnames.
    rewrite (on_set_parameters_streaming nd cam params Hcam Hs), Hnames. reflexivity.
  - intros v Hv. unfold set_parameter_buffer_count. rewrite Hv. unfold bind.
    rewrite (on_set_parameters_streaming nd cam _ Hcam Hs).
    unfold names_buffer_count. cbn [existsb get_name].
    rewrite String.eqb_refl. reflexivity.
  - intros params.
    rewrite (on_set_parameters_stopped nd cam params Hcam Hs).
    eexists. split; reflexivity.
  - intros v Hv. unfold set_parameter_buffer_count. rewrite Hv. unfold bind at 1.
    rewrite (on_set_parameters_stopped nd cam _ Hcam Hs).
    cbn. eexists. split; [reflexivity | ]. repeat split.
    destruct (VimbaXCamera.start_streaming v cam) as [res cam1] eqn:Hstart.
    run. cbn. rewrite Hcam, Hstart. cbn.
    eexists. split; reflexivity.
Qed.

Lemma buffer_count_change_witness :
  (camera_ (make_shared DeviceCamera.healthy) = Some DeviceCamera.healthy
   /\ VimbaXCamera.is_streaming DeviceCamera.healthy = false
   /\ in_range bufferCountRange 12 = true
   /\ exists r1,
        set_parameter_buffer_count 12 (make_shared DeviceCamera.healthy) = Some r1
        /\ value_of r1 = Stored
        /\ buffer_count (node_of r1) = 12
        /\ exists r2,
             start_streaming (node_of r1) = Some r2
             /\ filter is_start (trace_of r2) = [CameraStartStreaming 12])
  /\ (camera_ (make_shared DeviceCamera.active) = Some DeviceCamera.active
      /\ VimbaXCamera.is_streaming DeviceCamera.active = true
      /\ names_buffer_count [buffer_count_request 12] = true
      /\ on_set_parameters [buffer_count_request 12] (make_shared DeviceCamera.active)
         = Some (not_supported_while_streaming, make_shared DeviceCamera.active, [])).
Proof.
  split.
  - split; [reflexivity | split; [reflexivity | split; [reflexivity | ]]].
    exact (proj2 (proj2 (buffer_count_change (make_shared DeviceCamera.healthy)
                           DeviceCamera.healthy eq_refl) eq_refl) 12 eq_refl).
  - split; [reflexivity | split; [reflexivity | split; [reflexivity | ]]].
    exact (proj1 (proj1 (buffer_count_change (make_shared DeviceCamera.active)
                           DeviceCamera.active eq_refl) eq_refl)
             [buffer_count_request 12] eq_refl).
Defined.

Lemma serve_forwards {C A B : Type} (call : C -> result A * C) (store : A -> B -> B) :
  forwards (serve call store) call store.
Proof.
  intros response nd cam Hcam.
  unfold serve, respond, on_camera, bind, ret. rewrite Hcam.
  destruct (call cam) as [res cam1]. cbn.
  eexists. split; [reflexivity | ].
  destruct res; cbn; split; reflexivity.
Qed.

Lemma vector_at_middle {A : Type} (f : A -> A) (before : list A) (x : A) (after : list A) :
  vector_at (List.length before) f (before ++ x :: after) = Some (before ++ f x :: after).
Proof.
  induction before as [| y before IH]; cbn; [reflexivity | ].
  rewrite IH. reflexivity.
Qed.

Lemma vector_resize_length {A : Type} (d : A) (n : nat) :
  forall v, List.length (vector_resize d n v) = n.
Proof.
  induction n as [| n IH]; intros v; cbn; [reflexivity | ].
  destruct v; cbn; rewrite IH; reflexivity.
Qed.

Lemma fill_feature_info_map (r : list VimbaXCamera.feature_info) :
  forall before after : list msgs.FeatureInfo,
    List.length after = List.length r ->
    fill_feature_info (List.length before) r (before ++ after)
    = Some (before ++ map to_FeatureInfo r).
Proof.
  induction r as [| data rest IH]; intros before after Hlen.
  - destruct after; [ | discriminate Hlen ]. reflexivity.
  - destruct after as [| slot after]; [discriminate Hlen | ].
    cbn [fill_feature_info]. rewrite vector_at_middle.
    replace (before ++ copy_feature_info data slot :: after)
      with ((before ++ [to_FeatureInfo data]) ++ after)
      by (rewrite <- app_assoc; reflexivity).
    replace (S (List.length before)) with (List.length (before ++ [to_FeatureInfo data]))
      by (rewrite length_app; cbn; lia).
    rewrite IH by (injection Hlen as Hlen; exact Hlen).
    rewrite <- app_assoc. reflexivity.
Qed.

Lemma feature_info_query_forwards {C double : Type} `{VimbaXCamera.Features C double}
    (feature_names : list string) :
  forwards (feature_info_query_service feature_names)
           (VimbaXCamera.feature_info_query_list feature_names)
           (fun infos _ => map to_FeatureInfo infos).
Proof.
  intros response nd cam Hcam.
  unfold feature_info_query_service, on_camera, bind, ret. rewrite Hcam.
  destruct (VimbaXCamera.feature_info_query_list feature_names cam) as [res cam1].
  destruct res as [infos | code]; cbn.
  - pose proof (fill_feature_info_map infos [] _
                  (vector_resize_length default_FeatureInfo (List.length infos)
                     (msgs.body response))) as Hfill.
    cbn [List.length app] in Hfill. rewrite Hfill.
    cbn. eexists. split; [reflexivity | ]. split; reflexivity.
  - eexists. split; [reflexivity | ]. split; reflexivity.
Qed.

Lemma stream_start_forwards {C : Type} `{VimbaXCamera.Interface C}
    (nd : Node) (cam : C) (response : msgs.Response Datatypes.unit) :
  camera_ nd = Some cam ->
  exists r,
    stream_start_service response nd = Some r
    /\ filter is_transition (trace_of r) = [CameraStartStreaming (buffer_count nd)]
    /\ msgs.error (value_of r)
       = match fst (VimbaXCamera.start_streaming (buffer_count nd) cam) with
         | Err code => code
         | Ok _ => msgs.error response
         end.
Proof.
  intros Hcam.
  destruct (VimbaXCamera.start_streaming (buffer_count nd) cam) as [res cam1] eqn:Hstart.
  unfold stream_start_service, respond. run. rewrite Hcam, Hstart. cbn.
  destruct res; eexists; repeat split; reflexivity.
Qed.

Lemma stream_stop_forwards {C : Type} `{VimbaXCamera.Interface C}
    (nd : Node) (cam : C) (response : msgs.Response Datatypes.unit) :
  camera_ nd = Some cam ->
  exists r,
    stream_stop_service response nd = Some r
    /\ filter is_transition (trace_of r) = [CameraStopStreaming]
    /\ msgs.error (value_of r)
       = match fst (VimbaXCamera.stop_streaming cam) with
         | Err code => code
         | Ok _ => msgs.error response
         end.
Proof.
  intros Hcam.
  destruct (VimbaXCamera.stop_streaming cam) as [res cam1] eqn:Hstop.
  unfold stream_stop_service, respond. run. rewrite Hcam, Hstop. cbn.
  destruct res; eexists; repeat split; reflexivity.
Qed.

(** C8: every service handler answers with the result of its one call
    on the camera: the code of a failed call is the response's error,
    unchanged, and after a successful call the error is the one the
    response came with and the fields are the camera's values. *)
Theorem handlers_forward_camera_results {C double : Type}
    `{VimbaXCamera.Interface C} `{VimbaXCamera.Features C double} :
  (forall name,
      forwards (feature_int_get_service name)
               (VimbaXCamera.feature_int_get name) (fun value _ => value))
  /\ (forall name value,
        forwards (feature_int_set_service name value)
                 (VimbaXCamera.feature_int_set name value) nothing)
  /\ (forall name,
        forwards (feature_int_info_get_service name)
                 (VimbaXCamera.feature_int_info_get name)
                 (fun '(r0, r1, r2) _ => msgs.mkIntInfo r0 r1 r2))
  /\ (forall name,
        forwards (feature_float_get_service name)
                 (VimbaXCamera.feature_float_get name) (fun value _ => value))
  /\ (forall name value,
        forwards (feature_float_set_service name value)
                 (VimbaXCamera.feature_float_set name value) nothing)
  /\ (forall name,
        forwards (feature_float_info_get_service name)
                 (VimbaXCamera.feature_float_info_get name)
                 (fun r _ =>
                    msgs.mkFloatInfo (VimbaXCamera.min r) (VimbaXCamera.max r)
                                     (VimbaXCamera.inc r) (VimbaXCamera.inc_available r)))
  /\ (forall name,
        forwards (feature_string_get_service name)
                 (VimbaXCamera.feature_string_get name) (fun value _ => value))
  /\ (forall name value,
        forwards (feature_string_set_service name value)
                 (VimbaXCamera.feature_string_set name value) nothing)
  /\ (forall name,
        forwards (feature_string_info_get_service name)
                 (VimbaXCamera.feature_string_info_get name) (fun value _ => value))
  /\ (forall name,
        forwards (feature_bool_get_service name)
                 (VimbaXCamera.feature_bool_get name) (fun value _ => value))
  /\ (forall name value,
        forwards (feature_bool_set_service name value)
                 (VimbaXCamera.feature_bool_set name value) nothing)
  /\ (forall name,
        forwards (feature_command_is_done_service name)
                 (VimbaXCamera.feature_command_is_done name) (fun value _ => value))
  /\ (forall name,
        forwards (feature_command_run_service name)
                 (VimbaXCamera.feature_command_run name) nothing)
  /\ (forall name,
        forwards (feature_enum_get_service name)
                 (VimbaXCamera.feature_enum_get name) (fun value _ => value))
  /\ (forall name value,
        forwards (feature_enum_set_service name value)
                 (VimbaXCamera.feature_enum_set name value) nothing)
  /\ (forall name,
        forwards (feature_enum_info_get_service name)
                 (VimbaXCamera.feature_enum_info_get name)
                 (fun '(r0, r1) _ => msgs.mkEnumInfo r0 r1))
  /\ (forall name option,
        forwards (feature_enum_as_int_get_service name option)
                 (VimbaXCamera.feature_enum_as_int_get name option)
                 (fun value _ => value))
  /\ (forall name value,
        forwards (feature_enum_as_string_get_service name value)
                 (VimbaXCamera.feature_enum_as_string_get name value)
                 (fun option _ => option))
  /\ (forall name,
        forwards (feature_raw_get_service name)
                 (VimbaXCamera.feature_raw_get name)
                 (fun r _ => msgs.mkRawValue r (Z.of_nat (List.length r))))
  /\ (forall name buffer,
        forwards (feature_raw_set_service name buffer)
                 (VimbaXCamera.feature_raw_set name buffer) nothing)
  /\ (forall name,
        forwards (feature_raw_info_get_service name)
                 (VimbaXCamera.feature_raw_info_get name) (fun value _ => value))
  /\ (forall name,
        forwards (feature_access_mode_get_service name)
                 (VimbaXCamera.feature_access_mode_get name)
                 (fun '(r0, r1) _ => msgs.mkAccessMode r0 r1))
  /\ (forall names,
        forwards (feature_info_query_service names)
                 (VimbaXCamera.feature_info_query_list names)
                 (fun infos _ =>
                    map (fun data =>
                           msgs.mkFeatureInfo
                             (VimbaXCamera.name data) (VimbaXCamera.category data)
                             (VimbaXCamera.display_name data)
                             (VimbaXCamera.sfnc_namespace data)
                             (VimbaXCamera.feature_unit data)
                             (VimbaXCamera.data_type data)
                             (msgs.mkFeatureFlags
                                (VimbaXCamera.flag_none (VimbaXCamera.flags data))
                                (VimbaXCamera.flag_read (VimbaXCamera.flags data))
                                (VimbaXCamera.flag_write (VimbaXCamera.flags data))
                                (VimbaXCamera.flag_volatile (VimbaXCamera.flags data))
                                (VimbaXCamera.flag_modify_write
                                   (VimbaXCamera.flags data)))
                             (VimbaXCamera.polling_time data))
                        infos))
  /\ forwards features_list_get_service VimbaXCamera.features_list_get
              (fun r _ => r)
  /\ (forall filename,
        forwards (settings_save_service filename)
                 (VimbaXCamera.settings_save filename) nothing)
  /\ (forall filename,
        forwards (settings_load_service filename)
                 (VimbaXCamera.settings_load filename) nothing)
  /\ forwards status_service VimbaXCamera.camera_info_get
              (fun info b =>
                 msgs.mkStatus
                   (VimbaXCamera.info_display_name _ info)
                   (VimbaXCamera.info_model_name _ info)
                   (VimbaXCamera.info_firmware_version _ info)
                   (VimbaXCamera.info_device_id _ info)
                   (VimbaXCamera.info_device_user_id _ info)
                   (VimbaXCamera.info_device_serial_number _ info)
                   (VimbaXCamera.info_interface_id _ info)
                   (VimbaXCamera.info_transport_layer_id _ info)
                   (VimbaXCamera.info_streaming _ info)
                   (VimbaXCamera.info_width _ info)
                   (VimbaXCamera.info_height _ info)
                   (VimbaXCamera.info_frame_rate _ info)
                   (VimbaXCamera.info_pixel_format _ info)
                   (VimbaXCamera.info_trigger_mode _ info)
                   (VimbaXCamera.info_trigger_source _ info)
                   (match VimbaXCamera.info_ip_address _ info with
                    | Some ip => ip
                    | None => msgs.ip_address b
                    end)
                   (match VimbaXCamera.info_mac_address _ info with
                    | Some mac => mac
                    | None => msgs.mac_address b
                    end))
  /\ (forall (nd : Node) (cam : C) response,
        camera_ nd = Some cam ->
        exists r,
          stream_start_service response nd = Some r
          /\ msgs.error (value_of r)
             = match fst (VimbaXCamera.start_streaming (buffer_count nd) cam) with
               | Err code => code
               | Ok _ => msgs.error response
               end)
  /\ (forall (nd : Node) (cam : C) response,
        camera_ nd = Some cam ->
        exists r,
          stream_stop_service response nd = Some r
          /\ msgs.error (value_of r)
             = match fst (VimbaXCamera.stop_streaming cam) with
               | Err code => code
               | Ok _ => msgs.error response
               end).
Proof.
  repeat match goal with
         | |- _ /\ _ => split
         | |- forall _, forwards _ _ _ => intro
         | |- forall _ _, forwards _ _ _ => intro
         end;
    try apply serve_forwards.
  - exact (feature_info_query_forwards names).
  - intros nd cam response Hcam.
    destruct (stream_start_forwards nd cam response Hcam) as [r [Hr [_ Herr]]].
    exists r. split; assumption.
  - intros nd cam response Hcam.
    destruct (stream_stop_forwards nd cam response Hcam) as [r [Hr [_ Herr]]].
    exists r. split; assumption.
Qed.

Lemma handlers_forward_camera_results_witness :
  camera_ (make_shared DeviceCamera.healthy) = Some DeviceCamera.healthy
  /\ (exists response',
        feature_int_get_service "Width"%string (new_response 0)
                                (make_shared DeviceCamera.healthy)
        = Some (response', make_shared DeviceCamera.healthy, [])
        /\ msgs.error response' = 0
        /\ msgs.body response' = 640)
  /\ (exists response',
        settings_load_service "missing.xml"%string (new_response tt)
                              (make_shared DeviceCamera.healthy)
        = Some (response', make_shared DeviceCamera.healthy, [])
        /\ msgs.error response' = DeviceCamera.not_found
        /\ msgs.body response' = tt)
  /\ (exists response',
        status_service (camera_features := reporting) (new_response unwritten_status)
                       (make_shared DeviceCamera.healthy)
        = Some (response', make_shared DeviceCamera.healthy, [])
        /\ msgs.error response' = 0
        /\ msgs.body response'
           = msgs.mkStatus "Alvium"%string "1800 U-500c"%string "1.2.3"%string
               "DEV_1"%string "left"%string "SN0042"%string "USB"%string
               "VimbaUSBTL"%string true 640 480 30 "Mono8"%string "Off"%string
               "Software"%string "192.168.0.2"%string "no mac"%string)
  /\ (exists response',
        feature_info_query_service (camera_features := reporting) ["Width"%string]
          (new_response [stale_FeatureInfo; stale_FeatureInfo; stale_FeatureInfo])
          (make_shared DeviceCamera.healthy)
        = Some (response', make_shared DeviceCamera.healthy, [])
        /\ msgs.error response' = 0
        /\ msgs.body response'
           = [msgs.mkFeatureInfo "Width"%string "/ImageFormat"%string "Width"%string
                "Standard"%string "px"%string 2
                (msgs.mkFeatureFlags false true true false true) 250]).
Proof.
  pose proof (@handlers_forward_camera_results DeviceCamera.t Z _ _) as Hall.
  pose proof (@handlers_forward_camera_results DeviceCamera.t Z _ reporting) as Hreport.
  split; [reflexivity | split; [ | split; [ | split ] ] ].
  - exact (proj1 Hall "Width"%string (new_response 0)
             (make_shared DeviceCamera.healthy) DeviceCamera.healthy eq_refl).
  - do 25 apply proj2 in Hall.
    exact (proj1 Hall "missing.xml"%string (new_response tt)
             (make_shared DeviceCamera.healthy) DeviceCamera.healthy eq_refl).
  - do 26 apply proj2 in Hreport.
    exact (proj1 Hreport (new_response unwritten_status)
             (make_shared DeviceCamera.healthy) DeviceCamera.healthy eq_refl).
  - do 22 apply proj2 in Hreport.
    exact (proj1 Hreport ["Width"%string]
             (new_response [stale_FeatureInfo; stale_FeatureInfo; stale_FeatureInfo])
             (make_shared DeviceCamera.healthy) DeviceCamera.healthy eq_refl).
Defined.

Lemma graph_notify_iteration_runs {C : Type} `{VimbaXCamera.Interface C}
    (nd : Node) (cam : C) (changed : bool) :
  camera_ nd = Some cam ->
  exists r cam',
    graph_notify_iteration changed nd = Some r
    /\ camera_ (node_of r) = Some cam'
    /\ stop_threads_ (node_of r) = stop_threads_ nd
    /\ forallb monitor_event (trace_of r) = true.
Proof.
  intros Hcam. destruct changed.
  - destruct (num_subscribers nd =? 0)%N eqn:En;
      destruct (VimbaXCamera.is_streaming cam) eqn:Hs;
      destruct (VimbaXCamera.stop_streaming cam) as [res1 cam1] eqn:Hstop;
      destruct (VimbaXCamera.start_streaming (buffer_count nd) cam)
        as [res2 cam2] eqn:Hstart;
      run;
      repeat (rewrite ?positive_iff_not_zero, ?En, ?Hcam, ?Hs, ?Hstop, ?Hstart;
              cbn -[N.eqb]);
      do 2 eexists; repeat split; reflexivity.
  - exists (tt, nd, []), cam. repeat split. exact Hcam.
Qed.

Lemma graph_notify_turns_run {C : Type} `{VimbaXCamera.Interface C} (turns : list bool) :
  forall (nd : Node) (cam : C),
    camera_ nd = Some cam ->
    exists r cam',
      graph_notify_turns turns nd = Some r
      /\ camera_ (node_of r) = Some cam'
      /\ stop_threads_ (node_of r) = stop_threads_ nd
      /\ forallb monitor_event (trace_of r) = true.
Proof.
  induction turns as [| changed rest IH]; intros nd cam Hcam.
  - exists (tt, nd, []), cam. repeat split. exact Hcam.
  - destruct (graph_notify_iteration_runs nd cam changed Hcam)
      as [[[[] nd1] tr1] [cam1 [Hturn [Hcam1 [Hflag1 Hev1]]]]].
    destruct (IH nd1 cam1 Hcam1) as [[[[] nd2] tr2] [cam2 [Hrest [Hcam2 [Hflag2 Hev2]]]]].
    exists (tt, nd2, tr1 ++ tr2), cam2.
    cbn [graph_notify_turns]. unfold bind. rewrite Hturn, Hrest.
    unfold node_of, trace_of in *. cbn [fst snd] in *.
    repeat split.
    + exact Hcam2.
    + rewrite Hflag2. exact Hflag1.
    + rewrite forallb_app, Hev1, Hev2. reflexivity.
Qed.

(** C9: teardown raises the stop flag first, then joins the monitor
    thread (which may still finish turns of its loop), then stops the
    camera if it streams at that point, and releases the camera last. *)
Theorem teardown_order {C : Type} `{VimbaXCamera.Interface C}
    (nd : Node) (cam : C) (turns : list bool) :
  camera_ nd = Some cam ->
  exists monitor r,
    graph_notify_turns turns (set_stop_threads true nd) = Some monitor
    /\ forallb monitor_event (trace_of monitor) = true
    /\ destructor turns nd = Some r
    /\ trace_of r
       = [StoreStopThreads]
         ++ (if graph_notify_thread_ nd
             then trace_of monitor ++ [JoinGraphNotifyThread]
             else [])
         ++ (if still_streaming (if graph_notify_thread_ nd then node_of monitor
                                 else set_stop_threads true nd)
             then [CameraStopStreaming]
             else [])
         ++ [CameraReset]
    /\ camera_ (node_of r) = None
    /\ stop_threads_ (node_of r) = true.
Proof.
  intros Hcam.
  destruct (graph_notify_turns_run turns (set_stop_threads true nd) cam Hcam)
    as [[[[] nd1] tr1] [cam1 [Hturns [Hcam1 [Hflag Hev]]]]].
  exists (tt, nd1, tr1). unfold node_of, trace_of in *. cbn [fst snd] in *.
  cbn in Hflag.
  destruct (VimbaXCamera.is_streaming cam) eqn:Hs;
    destruct (VimbaXCamera.stop_streaming cam) as [res cam'] eqn:Hstop;
    destruct (VimbaXCamera.is_streaming cam1) eqn:Hs1;
    destruct (VimbaXCamera.stop_streaming cam1) as [res1 cam1'] eqn:Hstop1;
    destruct (graph_notify_thread_ nd) eqn:Hthread;
    unfold destructor, join_graph_notify_thread, still_streaming, streaming_of;
    run;
    repeat (rewrite ?Hthread, ?Hturns, ?Hcam, ?Hcam1, ?Hs, ?Hs1, ?Hstop, ?Hstop1;
            cbn -[graph_notify_turns]);
    eexists;
    (split; [reflexivity | split; [exact Hev | split; [reflexivity | ]]]);
    cbn; rewrite <- ?app_assoc, ?Hflag; repeat split; reflexivity.
Qed.

Lemma teardown_order_witness :
  camera_ (subscribed 0 (DeviceCamera.stop_fails (-5)))
  = Some (DeviceCamera.stop_fails (-5))
  /\ exists r,
       destructor [] (subscribed 0 (DeviceCamera.stop_fails (-5))) = Some r
       /\ trace_of r
          = [StoreStopThreads; JoinGraphNotifyThread; CameraStopStreaming; CameraReset].
Proof.
  split; [reflexivity | ].
  destruct (teardown_order (subscribed 0 (DeviceCamera.stop_fails (-5)))
              (DeviceCamera.stop_fails (-5)) [] eq_refl)
    as [monitor [r [Hmonitor [_ [Hr [Htr _]]]]]].
  exists r. split; [exact Hr | ].
  injection Hmonitor as <-. exact Htr.
Defined.

(** ** Stream transitions in flight *)

Import Scheduling.

Lemma none_in_flight (p : activity -> bool) (running : list activity) :
  existsb p running = false -> in_flight p running = 0%nat.
Proof.
  unfold in_flight. induction running as [| t running IH]; cbn; [reflexivity | ].
  destruct (p t); cbn; [discriminate | exact IH].
Qed.

Lemma in_flight_after_end (p : activity -> bool) (before : list activity) (t : activity)
    (after : list activity) :
  (in_flight p (before ++ after) <= in_flight p (before ++ t :: after))%nat.
Proof.
  unfold in_flight. rewrite !filter_app, !length_app. cbn.
  destruct (p t); cbn; lia.
Qed.

Lemma in_flight_split (running : list activity) :
  in_flight is_stream_transition running
  = (in_flight (runs_in stream_start_stop_callback_group_) running
     + in_flight is_graph_notify running)%nat.
Proof.
  unfold in_flight. induction running as [| t running IH]; cbn; [reflexivity | ].
  destruct t as [s | | ]; cbn.
  - destruct s; cbn; lia.
  - lia.
  - lia.
Qed.

(** C2, as stated, fails: nothing keeps the graph monitor from calling
    [start_streaming] while the executor runs the [stream_start]
    handler, so two stream transitions can be in flight. *)
Lemma monitor_start_overlaps_stream_start :
  reachable [GraphNotifyStart; Handler stream_start_service_]
  /\ in_flight is_stream_transition [GraphNotifyStart; Handler stream_start_service_]
     = 2%nat.
Proof.
  split; [ | reflexivity ].
  apply reachable_step with (running := [Handler stream_start_service_]).
  - apply reachable_step with (running := []).
    + apply reachable_idle.
    + apply step_begin. reflexivity.
  - apply step_begin. reflexivity.
Qed.

(** C2, amended: at most one handler of the stream start/stop group
    is in flight at any time, so the [stream_start] and [stream_stop]
    handlers exclude one another, and the graph monitor has at most
    one of its own start or stop calls in flight; a monitor call and
    a handler are not kept apart, so up to two transitions can be in
    flight. *)
Theorem stream_handlers_exclusive (running : list activity) :
  reachable running ->
  (in_flight (runs_in stream_start_stop_callback_group_) running <= 1)%nat
  /\ (in_flight is_graph_notify running <= 1)%nat
  /\ (in_flight is_stream_transition running <= 2)%nat.
Proof.
  intros Hreach.
  assert (Hboth :
            (in_flight (runs_in stream_start_stop_callback_group_) running <= 1)%nat
            /\ (in_flight is_graph_notify running <= 1)%nat).
  { induction Hreach as [| running running' Hreach [IHg IHm] Hstep].
    - split; cbn; lia.
    - destruct Hstep as [running t Hbegin | before t after].
      + destruct t as [s | | ].
        * split; [ | exact IHm ].
          destruct (runs_in stream_start_stop_callback_group_ (Handler s)) eqn:Hin.
          -- assert (Hg : service_group s = stream_start_stop_callback_group_)
               by (destruct s; cbn in Hin; try discriminate Hin; reflexivity).
             unfold may_begin in Hbegin. rewrite Hg in Hbegin. cbn in Hbegin.
             apply negb_true_iff in Hbegin.
             apply none_in_flight in Hbegin.
             unfold in_flight in *. cbn [filter]. rewrite Hin. cbn. lia.
          -- unfold in_flight in *. cbn [filter]. rewrite Hin. exact IHg.
        * split; [exact IHg | ].
          cbn in Hbegin. apply negb_true_iff in Hbegin.
          apply none_in_flight in Hbegin.
          unfold in_flight in *. cbn. lia.
        * split; [exact IHg | ].
          cbn in Hbegin. apply negb_true_iff in Hbegin.
          apply none_in_flight in Hbegin.
          unfold in_flight in *. cbn. lia.
      + split.
        * pose proof (in_flight_after_end
                        (runs_in stream_start_stop_callback_group_) before t after).
          lia.
        * pose proof (in_flight_after_end is_graph_notify before t after). lia. }
  destruct Hboth as [Hg Hm].
  split; [exact Hg | split; [exact Hm | ]].
  rewrite in_flight_split. lia.
Qed.

Lemma stream_handlers_exclusive_witness :
  reachable [Handler stream_stop_service_]
  /\ (in_flight (runs_in stream_start_stop_callback_group_)
                [Handler stream_stop_service_] <= 1)%nat.
Proof.
  assert (Hreach : reachable [Handler stream_stop_service_]).
  { apply reachable_step with (running := []).
    - apply reachable_idle.
    - apply step_begin. reflexivity. }
  split; [exact Hreach | ].
  exact (proj1 (stream_handlers_exclusive [Handler stream_stop_service_] Hreach)).
Defined.

(** * Further properties of the node *)

(** ** The node's name *)

(** X1: the node name is ["vimbax_camera_"] followed by the pid in
    decimal, so two processes have the same node name only when they
    have the same pid. *)
Theorem node_name_unique (p q : N) :
  get_node_name p = get_node_name q <-> p = q.
Proof.
  split; [ | intros ->; reflexivity ].
  unfold get_node_name. cbn [String.append]. intros Heq.
  repeat (injection Heq as Heq).
  assert (Hd : Some (N.to_uint p) = Some (N.to_uint q)).
  { rewrite <- !DecimalString.NilEmpty.usu. rewrite Heq. reflexivity. }
  injection Hd as Hd.
  rewrite <- (DecimalN.Unsigned.of_to p), <- (DecimalN.Unsigned.of_to q), Hd.
  reflexivity.
Qed.

(** ** Callback groups *)

Lemma callback_group_eqb_eq (a b : callback_group) :
  callback_group_eqb a b = true -> a = b.
Proof. destruct a, b; cbn; intros Heq; try discriminate Heq; reflexivity. Qed.

Lemma exclusive_group_at_most_one (g : callback_group) (running : list activity) :
  group_type g = MutuallyExclusive ->
  reachable running ->
  (in_flight (runs_in g) running <= 1)%nat.
Proof.
  intros Hexclusive Hreach.
  induction Hreach as [| running running' Hreach IH Hstep]; [cbn; lia | ].
  destruct Hstep as [running t Hbegin | before t after].
  - destruct (runs_in g t) eqn:Hin.
    + destruct t as [s | | ]; cbn in Hin; try discriminate Hin.
      apply callback_group_eqb_eq in Hin.
      unfold may_begin in Hbegin. rewrite Hin, Hexclusive in Hbegin.
      apply negb_true_iff in Hbegin. apply none_in_flight in Hbegin.
      unfold in_flight in *. cbn [filter runs_in]. rewrite Hin.
      replace (callback_group_eqb g g) with true by (destruct g; reflexivity).
      cbn. lia.
    + unfold in_flight in *. cbn [filter]. rewrite Hin. exact IH.
  - pose proof (in_flight_after_end (runs_in g) before t after). lia.
Qed.

Lemma settings_handlers_are_the_settings_group (t : activity) :
  is_settings_handler t = runs_in settings_load_save_callback_group_ t.
Proof. destruct t as [s | | ]; [destruct s | | ]; reflexivity. Qed.

Lemma settings_handlers_running (running : list activity) :
  existsb is_settings_handler running
  = existsb (runs_in settings_load_save_callback_group_) running.
Proof.
  induction running as [| t rest IH]; [reflexivity | ].
  cbn [existsb]. rewrite settings_handlers_are_the_settings_group, IH. reflexivity.
Qed.

Lemma reachable_begin (running : list activity) (t : activity) :
  reachable running -> may_begin running t = true -> reachable (t :: running).
Proof.
  intros Hreach Hbegin. apply reachable_step with (running := running).
  - exact Hreach.
  - apply step_begin. exact Hbegin.
Qed.

(** X2: [settings_save] and [settings_load] are created in one
    mutually exclusive group of their own: at most one of their
    handlers is in flight at any time, and a settings handler is held
    back exactly while another settings handler runs, not by a stream
    handler, the monitor or a feature handler. *)
Theorem settings_handlers_exclusive (running : list activity) :
  reachable running ->
  (in_flight is_settings_handler running <= 1)%nat
  /\ (forall s,
        is_settings_service s = true ->
        may_begin running (Handler s) = negb (existsb is_settings_handler running)).
Proof.
  intros Hreach. split.
  - unfold in_flight.
    rewrite (filter_ext _ _ settings_handlers_are_the_settings_group).
    exact (exclusive_group_at_most_one settings_load_save_callback_group_ running
             eq_refl Hreach).
  - intros s Hs.
    rewrite settings_handlers_running.
    destruct s; try discriminate Hs; reflexivity.
Qed.

Lemma settings_handlers_exclusive_witness :
  reachable [Handler settings_load_service_; Handler stream_start_service_;
             GraphNotifyStop; Handler feature_int_get_service_]
  /\ (in_flight is_settings_handler
                [Handler settings_load_service_; Handler stream_start_service_;
                 GraphNotifyStop; Handler feature_int_get_service_] <= 1)%nat
  /\ may_begin [Handler settings_load_service_; Handler stream_start_service_;
                GraphNotifyStop; Handler feature_int_get_service_]
               (Handler settings_save_service_) = false.
Proof.
  assert (Hreach : reachable [Handler settings_load_service_;
                              Handler stream_start_service_;
                              GraphNotifyStop; Handler feature_int_get_service_]).
  { repeat (apply reachable_begin; [ | reflexivity ]). apply reachable_idle. }
  split; [exact Hreach | ].
  destruct (settings_handlers_exclusive _ Hreach) as [Hone Hheld].
  split; [exact Hone | ].
  exact (Hheld settings_save_service_ eq_refl).
Defined.

(** X3: the services of feature access and the status service are
    created in reentrant groups: in every reachable state, whatever
    is in flight (other handlers of the same service, settings or
    stream handlers, a call of the monitor), a handler of any of them
    can begin at once. *)
Theorem feature_and_status_handlers_never_wait (running : list activity) (s : service) :
  reachable running ->
  is_settings_service s = false ->
  is_stream_service s = false ->
  may_begin running (Handler s) = true
  /\ reachable (Handler s :: running).
Proof.
  intros Hreach Hsettings Hstream.
  assert (Hbegin : may_begin running (Handler s) = true)
    by (destruct s; try discriminate Hsettings; try discriminate Hstream; reflexivity).
  split; [exact Hbegin | exact (reachable_begin running (Handler s) Hreach Hbegin)].
Qed.

Lemma feature_and_status_handlers_never_wait_witness :
  reachable [Handler settings_load_service_; Handler stream_start_service_;
             GraphNotifyStop; Handler feature_int_get_service_]
  /\ reachable [Handler feature_int_get_service_;
                Handler settings_load_service_; Handler stream_start_service_;
                GraphNotifyStop; Handler feature_int_get_service_].
Proof.
  assert (Hreach : reachable [Handler settings_load_service_;
                              Handler stream_start_service_;
                              GraphNotifyStop; Handler feature_int_get_service_]).
  { repeat (apply reachable_begin; [ | reflexivity ]). apply reachable_idle. }
  split; [exact Hreach | ].
  exact (proj2 (feature_and_status_handlers_never_wait _ feature_int_get_service_
                  Hreach eq_refl eq_refl)).
Defined.

(** ** The parameter callback *)

(** X4: the parameter callback looks at [buffer_count] only: a request
    that does not name it is accepted in every state, streaming or
    not, and without a look at the camera. *)
Theorem callback_ignores_other_parameters {C : Type} `{VimbaXCamera.Interface C}
    (nd : Node) (params : list rclcpp_Parameter) :
  names_buffer_count params = false ->
  on_set_parameters params nd = Some (mkSetParametersResult true EmptyString, nd, []).
Proof.
  induction params as [| param rest IH]; intros Hnames; [reflexivity | ].
  cbn [names_buffer_count existsb] in Hnames.
  apply orb_false_iff in Hnames. destruct Hnames as [Hname Hrest].
  cbn [on_set_parameters]. rewrite Hname. exact (IH Hrest).
Qed.

Lemma callback_ignores_other_parameters_witness :
  names_buffer_count [camera_id_request "DEV_1"%string] = false
  /\ on_set_parameters [camera_id_request "DEV_1"%string]
                       (unopened (C := DeviceCamera.t))
     = Some (mkSetParametersResult true EmptyString, unopened, []).
Proof.
  split; [reflexivity | ].
  exact (callback_ignores_other_parameters unopened
           [camera_id_request "DEV_1"%string] eq_refl).
Defined.

(** ** The monitor loop and the stop flag *)

Lemma graph_notify_turns_keep_flag {C : Type} `{VimbaXCamera.Interface C}
    (turns : list bool) :
  forall (nd : Node) r,
    graph_notify_turns turns nd = Some r ->
    stop_threads_ (node_of r) = stop_threads_ nd.
Proof.
  induction turns as [| changed rest IH]; intros nd r Hr.
  - injection Hr as <-. reflexivity.
  - cbn [graph_notify_turns] in Hr. unfold bind in Hr.
    destruct (graph_notify_iteration changed nd) as [[[[] nd1] tr1] | ] eqn:Hturn;
      [ | discriminate Hr ].
    destruct (graph_notify_turns rest nd1) as [[[[] nd2] tr2] | ] eqn:Hrest;
      [ | discriminate Hr ].
    injection Hr as <-.
    pose proof (IH nd1 _ Hrest) as Hflag2. unfold node_of in *. cbn [fst snd] in *.
    rewrite Hflag2.
    destruct (camera_ nd) as [cam | ] eqn:Hcam.
    + destruct (graph_notify_iteration_runs nd cam changed Hcam)
        as [r1 [cam1 [Hr1 [_ [Hflag1 _]]]]].
      rewrite Hturn in Hr1. injection Hr1 as <-. exact Hflag1.
    + destruct changed; [ | injection Hturn as <- _; reflexivity ].
      revert Hturn. run. destruct (0 <? num_subscribers nd)%N; cbn.
      * rewrite Hcam. discriminate.
      * destruct (num_subscribers nd =? 0)%N; cbn.
        -- rewrite Hcam. discriminate.
        -- intros Hturn. injection Hturn as <- _. reflexivity.
Qed.

Lemma graph_notify_loop_while_clear {C : Type} `{VimbaXCamera.Interface C}
    (wakes : list bool) :
  forall nd : Node,
    stop_threads_ nd = false ->
    graph_notify_loop wakes nd = graph_notify_turns wakes nd.
Proof.
  induction wakes as [| changed rest IH]; intros nd Hflag; [reflexivity | ].
  cbn [graph_notify_loop graph_notify_turns]. unfold bind at 1. unfold gets.
  rewrite Hflag. cbn. unfold bind.
  destruct (graph_notify_iteration changed nd) as [[[[] nd1] tr1] | ] eqn:Hturn;
    [ | reflexivity ].
  assert (Hflag1 : stop_threads_ nd1 = false).
  { pose proof (graph_notify_turns_keep_flag [changed] nd) as Hkeep.
    cbn [graph_notify_turns] in Hkeep. unfold bind, ret in Hkeep.
    rewrite Hturn in Hkeep. specialize (Hkeep _ eq_refl).
    unfold node_of in Hkeep. cbn in Hkeep. rewrite Hkeep. exact Hflag. }
  rewrite (IH nd1 Hflag1).
  destruct (graph_notify_turns rest nd1) as [[[[] nd2] tr2] | ]; reflexivity.
Qed.

(** X5: the monitor loop tests the stop flag before every turn and
    never writes it: with the flag set it makes no turn at all, and
    with the flag clear it makes the turn of every wake, so nothing
    but the destructor's store ends it. *)
Theorem graph_notify_loop_runs_until_flag {C : Type} `{VimbaXCamera.Interface C}
    (nd : Node) (wakes : list bool) :
  (stop_threads_ nd = true -> graph_notify_loop wakes nd = Some (tt, nd, []))
  /\ (stop_threads_ nd = false ->
      graph_notify_loop wakes nd = graph_notify_turns wakes nd)
  /\ (forall r,
        graph_notify_loop wakes nd = Some r ->
        stop_threads_ (node_of r) = stop_threads_ nd).
Proof.
  split; [ | split ].
  - apply graph_notify_loop_stops.
  - apply graph_notify_loop_while_clear.
  - intros r Hr. destruct (stop_threads_ nd) eqn:Hflag.
    + rewrite (graph_notify_loop_stops nd wakes Hflag) in Hr.
      injection Hr as <-. exact Hflag.
    + rewrite (graph_notify_loop_while_clear wakes nd Hflag) in Hr.
      rewrite (graph_notify_turns_keep_flag wakes nd r Hr). exact Hflag.
Qed.

Lemma graph_notify_loop_runs_until_flag_witness :
  stop_threads_ (subscribed 1 DeviceCamera.healthy) = false
  /\ graph_notify_loop [true; true] (subscribed 1 DeviceCamera.healthy)
     = graph_notify_turns [true; true] (subscribed 1 DeviceCamera.healthy).
Proof.
  split; [reflexivity | ].
  exact (proj1 (proj2 (graph_notify_loop_runs_until_flag
                         (subscribed 1 DeviceCamera.healthy) [true; true])) eq_refl).
Defined.

(** ** Runs of frames *)

Lemma missing_total_app (a b : list event) :
  missing_total (a ++ b) = missing_total a + missing_total b.
Proof.
  induction a as [| e a IH]; [reflexivity | ].
  cbn [app missing_total].
  destruct e as [ | | | | | | | [ | | ] [ | | | ] ]; rewrite IH; lia.
Qed.

Lemma missing_total_filter (tr : list event) :
  missing_total (filter is_missing tr) = missing_total tr.
Proof.
  induction tr as [| e tr IH]; [reflexivity | ].
  destruct e as [ | | | | | | | [ | | ] [ | | | ] ]; cbn; rewrite ?IH; reflexivity.
Qed.

(** X6: over a run of frames whose ids go up, the diagnostics add up
    to the frames that did not arrive: the distance from the id seen
    before the run to the last id of the run, less the frames
    delivered. *)
Theorem missing_frames_add_up {C : Type} (frames : list Frame) :
  forall nd : Node (C := C),
    increasing (lastFrameId nd) frames ->
    exists r,
      deliver (published frames) nd = Some r
      /\ missing_total (trace_of r)
         = last_id (lastFrameId nd) frames - lastFrameId nd
           - Z.of_nat (List.length frames).
Proof.
  induction frames as [| frame rest IH]; intros nd Hup.
  - eexists. split; [reflexivity | ]. cbn. lia.
  - destruct Hup as [Hlt [Hin Hrest]].
    destruct (frame_callback_gap nd frame PublishReturns _ eq_refl Hin)
      as [r1 [Hr1 [Hlast Hdiag]]].
    destruct (frame_callback_updates nd frame PublishReturns) as [r1' [Hr1' [_ Hval]]].
    rewrite Hr1 in Hr1'. injection Hr1' as <-.
    destruct r1 as [[c nd1] tr1]. unfold node_of, trace_of, value_of in *.
    cbn [fst snd] in *. subst c.
    rewrite <- Hlast in Hrest.
    destruct (IH nd1 Hrest) as [[[c2 nd2] tr2] [Hr2 Htotal]].
    cbn [fst snd] in Htotal.
    exists (c2, nd2, tr1 ++ tr2).
    cbn [published map deliver]. unfold bind. rewrite Hr1.
    fold (published rest). rewrite Hr2. cbn [fst snd].
    split; [reflexivity | ].
    rewrite missing_total_app, Htotal, <- (missing_total_filter tr1), Hdiag, Hlast.
    cbn [last_id List.length].
    destruct (Z.ltb_spec 1 (get_frame_id frame - lastFrameId nd)); cbn; lia.
Qed.

Lemma missing_frames_add_up_witness :
  increasing (lastFrameId (seen 4 DeviceCamera.healthy))
             [frame_with_id 5; frame_with_id 9; frame_with_id 12]
  /\ exists r,
       deliver (published [frame_with_id 5; frame_with_id 9; frame_with_id 12])
               (seen 4 DeviceCamera.healthy) = Some r
       /\ missing_total (trace_of r) = 5.
Proof.
  assert (Hup : increasing (lastFrameId (seen 4 DeviceCamera.healthy))
                  [frame_with_id 5; frame_with_id 9; frame_with_id 12])
    by (cbn; unfold in_int64, int64_min, int64_max; repeat split; lia).
  split; [exact Hup | ].
  exact (missing_frames_add_up [frame_with_id 5; frame_with_id 9; frame_with_id 12]
           (seen 4 DeviceCamera.healthy) Hup).
Defined.

Lemma frame_callback_relays {C : Type} (nd : Node (C := C)) (frame : Frame) :
  exists r,
    frame_callback frame PublishReturns nd = Some r
    /\ value_of r = Returned
    /\ filter is_relay (trace_of r)
       = [Publish (get_frame_id frame); Queue (get_frame_id frame)].
Proof.
  run_callback.
  destruct (1 <? sub64 (get_frame_id frame) (lastFrameId nd)); cbn;
    destruct (queue frame =? VmbErrorSuccess); cbn;
    eexists; repeat split; reflexivity.
Qed.

(** X7: over a run whose publications return, the frames are
    published in the order they are delivered, each one once, and
    each buffer is handed back right after its own publication and
    before the next frame is published, whatever the ids and whatever
    the requeues answer. *)
Theorem frames_relayed_in_order {C : Type} (frames : list Frame) :
  forall nd : Node (C := C),
    exists r,
      deliver (published frames) nd = Some r
      /\ value_of r = Returned
      /\ filter is_relay (trace_of r)
         = flat_map (fun frame => [Publish (get_frame_id frame);
                                   Queue (get_frame_id frame)]) frames.
Proof.
  induction frames as [| frame rest IH]; intros nd.
  - eexists. repeat split; reflexivity.
  - destruct (frame_callback_relays nd frame) as [[[c nd1] tr1] [Hr1 [Hval Hrelay]]].
    unfold value_of, trace_of in Hval, Hrelay. cbn [fst snd] in Hval, Hrelay. subst c.
    destruct (IH nd1) as [[[c2 nd2] tr2] [Hr2 [Hval2 Hrelay2]]].
    unfold value_of, trace_of in Hval2, Hrelay2. cbn [fst snd] in Hval2, Hrelay2.
    exists (c2, nd2, tr1 ++ tr2).
    cbn [published map deliver]. unfold bind. rewrite Hr1.
    fold (published rest). rewrite Hr2.
    unfold value_of, trace_of. cbn [fst snd flat_map].
    repeat split; [exact Hval2 | ].
    rewrite filter_app, Hrelay, Hrelay2. reflexivity.
Qed.

(** ** The loop of [feature_info_query] *)

(** X8: the loop of [feature_info_query] never reaches past the end
    of the response's vector, and the response ends up with one entry
    per entry of the camera's answer, in the same order, with nothing
    left of what the vector held before. *)
Theorem feature_info_query_fills_response (infos : list VimbaXCamera.feature_info)
    (before : list msgs.FeatureInfo) :
  fill_feature_info 0 infos
    (vector_resize default_FeatureInfo (List.length infos) before)
  = Some (map to_FeatureInfo infos).
Proof.
  exact (fill_feature_info_map infos [] _
           (vector_resize_length default_FeatureInfo (List.length infos) before)).
Qed.

(** ** Teardown of a node without a monitor thread *)

Ltac run_destructor Hthread :=
  unfold destructor, still_streaming, streaming_of; run;
  cbn; rewrite Hthread; cbn;
  match goal with
  | |- context [camera_ ?nd] =>
      let cam := fresh "cam" in
      let Hcam := fresh "Hcam" in
      destruct (camera_ nd) as [cam | ] eqn:Hcam; cbn;
      [ rewrite ?Hcam; cbn;
        let Hs := fresh "Hs" in
        destruct (VimbaXCamera.is_streaming cam) eqn:Hs; cbn;
        [ rewrite ?Hcam;
          destruct (VimbaXCamera.stop_streaming cam) as [? ?]; cbn
        | ]
      | ]
  end.

Lemma destructor_without_thread {C : Type} `{VimbaXCamera.Interface C} (nd : Node) :
  graph_notify_thread_ nd = false ->
  option_map trace_of (destructor [] nd)
  = Some ([StoreStopThreads]
          ++ (if still_streaming nd then [CameraStopStreaming] else [])
          ++ [CameraReset]).
Proof. intros Hthread. run_destructor Hthread; reflexivity. Qed.

(** X9: on a node that has no monitor thread, as when startup stopped
    half-way, the destructor does not join and does not touch a null
    camera: it raises the flag, stops the camera only if there is one
    and it streams, and releases it. *)
Theorem teardown_without_thread {C : Type} `{VimbaXCamera.Interface C}
    (nd : Node) (turns : list bool) :
  graph_notify_thread_ nd = false ->
  exists r,
    destructor turns nd = Some r
    /\ trace_of r
       = [StoreStopThreads]
         ++ (if still_streaming nd then [CameraStopStreaming] else [])
         ++ [CameraReset]
    /\ camera_ (node_of r) = None.
Proof.
  intros Hthread. run_destructor Hthread; eexists; repeat split; reflexivity.
Qed.

Lemma teardown_without_thread_witness :
  graph_notify_thread_ (unopened (C := DeviceCamera.t)) = false
  /\ exists r,
       destructor [true] (unopened (C := DeviceCamera.t)) = Some r
       /\ trace_of r = [StoreStopThreads; CameraReset].
Proof.
  split; [reflexivity | ].
  destruct (teardown_without_thread (unopened (C := DeviceCamera.t)) [true] eq_refl)
    as [r [Hr [Htr _]]].
  exists r. split; [exact Hr | exact Htr].
Defined.

(** ** Startup *)

Lemma every_callback_group_is_created (g : callback_group) :
  In g Startup.all_callback_groups.
Proof. destruct g; cbn; tauto. Qed.

Lemma every_service_is_created (s : service) : In s Startup.all_services.
Proof.
  destruct s; unfold Startup.all_services;
    repeat (first [left; reflexivity | right]).
Qed.

Lemma create_callback_groups_ok {C : Type} (host : Startup.Host (C := C))
    (groups : list callback_group) :
  fst (Startup.create_callback_groups host groups)
  = forallb (Startup.create_callback_group host) groups.
Proof.
  induction groups as [| g rest IH]; [reflexivity | ].
  cbn [Startup.create_callback_groups forallb].
  destruct (Startup.create_callback_group host g); [ | reflexivity ].
  destruct (Startup.create_callback_groups host rest). exact IH.
Qed.

Lemma create_services_ok {C : Type} (host : Startup.Host (C := C))
    (services : list service) :
  fst (Startup.create_services host services)
  = forallb (Startup.create_service host) services.
Proof.
  induction services as [| s rest IH]; [reflexivity | ].
  cbn [Startup.create_services forallb].
  destruct (Startup.create_service host s); [ | reflexivity ].
  destruct (Startup.create_services host rest). exact IH.
Qed.

Lemma callback_groups_created_iff {C : Type} (host : Startup.Host (C := C)) :
  fst (Startup.initialize_callback_groups host) = true
  <-> forall g, Startup.create_callback_group host g = true.
Proof.
  unfold Startup.initialize_callback_groups.
  rewrite create_callback_groups_ok, forallb_forall. split.
  - intros Hall g. apply Hall. apply every_callback_group_is_created.
  - intros Hall g _. apply Hall.
Qed.

Lemma services_created_iff {C : Type} (host : Startup.Host (C := C)) :
  fst (Startup.initialize_services host) = true
  <-> forall s, Startup.create_service host s = true.
Proof.
  unfold Startup.initialize_services.
  pose proof (create_services_ok host Startup.all_services) as Hok.
  destruct (Startup.create_services host Startup.all_services) as [ok tr].
  cbn [fst] in *. rewrite Hok, forallb_forall. split.
  - intros Hall s. apply Hall. apply every_service_is_created.
  - intros Hall s _. apply Hall.
Qed.

(** X10: [make_shared] hands out a node exactly when everything it
    creates comes out non-null: the ROS node, the API, the camera, the
    four callback groups, the publisher and the 29 services.  The node
    then holds the opened camera, a running monitor thread, a clear
    stop flag and the buffer count of the parameters; a settings file
    that fails to load does not stand in the way. *)
Theorem startup_succeeds_iff_all_created {C double : Type}
    `{VimbaXCamera.Interface C} `{VimbaXCamera.Features C double}
    (host : Startup.Host (C := C)) (params : Startup.Parameters) :
  match fst (Startup.make_shared_on host params) with
  | Some nd =>
      all_created host params
      /\ exists cam,
           opened host params = Some cam
           /\ nd = mkNode (Some cam) true false
                     (Startup.parameter_buffer_count_value params) 0 lastFrameId_initial
  | None => ~ all_created host params
  end.
Proof.
  pose proof (callback_groups_created_iff host) as Hgroups.
  pose proof (services_created_iff host) as Hservices.
  unfold Startup.make_shared_on, all_created, opened,
    Startup.initialize_api, Startup.initialize_camera, Startup.initialize_publisher,
    Startup.initialize_graph_notify.
  destruct (Startup.create_node host (get_node_name (Startup.getpid host))) eqn:Hnode;
    cbn [negb fst]; [ | intros [Hno _]; discriminate Hno ].
  destruct (Startup.get_instance host) as [query | ] eqn:Hapi;
    cbn [negb fst]; [ | intros [_ [Hno _]]; apply Hno; reflexivity ].
  destruct (query (Startup.mkVersion 0 0 0)) as [error versionInfo]. cbn [negb fst].
  destruct (Startup.open host (Startup.camera_id params)) as [cam | ] eqn:Hopen;
    [ | cbn [fst]; intros [_ [_ [Hno _]]]; apply Hno; reflexivity ].
  assert (Hsome : forall c : C, Some c <> None) by discriminate.
  destruct (String.eqb (Startup.settings_file params) EmptyString);
    [ | destruct (VimbaXCamera.settings_load (Startup.settings_file params) cam)
          as [loadResult cam'] ];
    cbn [snd];
    (destruct (Startup.initialize_callback_groups host) as [[ | ] groups_tr];
     cbn [negb fst] in *;
     [ | intros [_ [_ [_ [Hg _]]]]; apply Hgroups in Hg; discriminate Hg ]);
    (destruct (Startup.create_publisher host) eqn:Hpub; cbn [negb fst];
     [ | intros [_ [_ [_ [_ [Hp _]]]]]; discriminate Hp ]);
    (destruct (Startup.initialize_services host) as [[ | ] services_tr];
     cbn [negb fst] in *;
     [ | intros [_ [_ [_ [_ [_ Hs]]]]]; apply Hservices in Hs; discriminate Hs ]);
    (split; [ | eexists; split; reflexivity ]);
    repeat split; try apply Hsome; try discriminate;
    first [ apply Hgroups | apply Hservices ]; reflexivity.
Qed.

Lemma callback_groups_trace_without {C : Type} (host : Startup.Host (C := C))
    (p : Startup.startup_event -> bool) (groups : list callback_group) :
  (forall g, p (Startup.CreateCallbackGroup g) = false) ->
  existsb p (snd (Startup.create_callback_groups host groups)) = false.
Proof.
  intros Hp. induction groups as [| g rest IH]; [reflexivity | ].
  cbn [Startup.create_callback_groups].
  destruct (Startup.create_callback_group host g).
  - destruct (Startup.create_callback_groups host rest) as [ok tr].
    cbn [snd existsb] in *. rewrite Hp, IH. reflexivity.
  - cbn. rewrite Hp. reflexivity.
Qed.

Lemma services_trace_without {C : Type} (host : Startup.Host (C := C))
    (p : Startup.startup_event -> bool) :
  (forall s, p (Startup.CreateService s) = false) ->
  (forall l, p (Startup.StartupLog l) = false) ->
  existsb p (snd (Startup.initialize_services host)) = false.
Proof.
  intros Hp Hlog. unfold Startup.initialize_services.
  assert (Hcreate : forall services,
             existsb p (snd (Startup.create_services host services)) = false).
  { induction services as [| s rest IH]; [reflexivity | ].
    cbn [Startup.create_services].
    destruct (Startup.create_service host s).
    - destruct (Startup.create_services host rest) as [ok tr].
      cbn [snd existsb] in *. rewrite Hp, IH. reflexivity.
    - cbn. rewrite Hp. reflexivity. }
  specialize (Hcreate Startup.all_services).
  destruct (Startup.create_services host Startup.all_services) as [ok tr].
  cbn [snd existsb] in *. rewrite Hlog, existsb_app, Hcreate.
  destruct ok; cbn; rewrite ?Hlog; reflexivity.
Qed.

Lemma abandon_trace {C : Type} `{VimbaXCamera.Interface C} (nd : Node) :
  graph_notify_thread_ nd = false ->
  Startup.abandon nd
  = map Startup.Teardown
        ([StoreStopThreads]
         ++ (if still_streaming nd then [CameraStopStreaming] else [])
         ++ [CameraReset]).
Proof.
  intros Hthread. unfold Startup.abandon.
  pose proof (destructor_without_thread nd Hthread) as Htrace.
  destruct (destructor [] nd) as [r | ]; [ | discriminate Htrace ].
  injection Htrace as ->. reflexivity.
Qed.

Lemma teardown_trace_without (p : Startup.startup_event -> bool) (tr : list event) :
  (forall e, p (Startup.Teardown e) = false) ->
  existsb p (map Startup.Teardown tr) = false.
Proof.
  intros Hp. induction tr as [| e tr IH]; [reflexivity | ].
  cbn. rewrite Hp, IH. reflexivity.
Qed.

Ltac startup_cases host params :=
  unfold Startup.make_shared_on, Startup.initialize_api, Startup.initialize_camera,
    Startup.initialize_publisher, Startup.initialize_graph_notify;
  destruct (Startup.create_node host (get_node_name (Startup.getpid host))) eqn:Hnode;
  [ destruct (Startup.get_instance host) as [query | ] eqn:Hapi;
    [ destruct (query (Startup.mkVersion 0 0 0)) as [error versionInfo];
      destruct (Startup.open host (Startup.camera_id params)) as [cam | ] eqn:Hopen;
      [ destruct (String.eqb (Startup.settings_file params) EmptyString) eqn:Hfile;
        [ | destruct (VimbaXCamera.settings_load (Startup.settings_file params) cam)
              as [loadResult cam'] eqn:Hload ];
        destruct (Startup.initialize_callback_groups host) as [[ | ] groups_tr] eqn:Hgroups;
        destruct (Startup.create_publisher host) eqn:Hpub;
        destruct (Startup.initialize_services host) as [[ | ] services_tr] eqn:Hservices
      | ]
    | ]
  | ];
  cbn [negb fst snd].

(** X11: startup calls [rclcpp::shutdown] exactly when the ROS node
    was created and then the API did not load or the camera did not
    open; a group, publisher or service that cannot be created ends
    startup without it. *)
Theorem shutdown_only_without_api_or_camera {C double : Type}
    `{VimbaXCamera.Interface C} `{VimbaXCamera.Features C double}
    (host : Startup.Host (C := C)) (params : Startup.Parameters) :
  existsb is_shutdown (snd (Startup.make_shared_on host params))
  = Startup.create_node host (get_node_name (Startup.getpid host))
    && match Startup.get_instance host with
       | None => true
       | Some _ =>
           match Startup.open host (Startup.camera_id params) with
           | None => true
           | Some _ => false
           end
       end.
Proof.
  pose proof (fun groups =>
                callback_groups_trace_without host is_shutdown groups (fun _ => eq_refl))
    as Hg.
  pose proof (services_trace_without host is_shutdown (fun _ => eq_refl) (fun _ => eq_refl))
    as Hs.
  pose proof (fun tr => teardown_trace_without is_shutdown tr (fun _ => eq_refl)) as Ht.
  specialize (Hg Startup.all_callback_groups).
  fold (Startup.initialize_callback_groups host) in Hg.
  startup_cases host params;
    rewrite ?Hgroups, ?Hservices in *; cbn [snd] in *;
    rewrite ?abandon_trace by reflexivity;
    repeat (rewrite ?existsb_app, ?Hg, ?Hs, ?Ht; cbn);
    try reflexivity;
    destruct (error =? VmbErrorSuccess); try destruct loadResult; cbn;
    rewrite ?existsb_app, ?Hg, ?Hs, ?Ht; reflexivity.
Qed.

Lemma feature_group_is_attempted {C : Type} (host : Startup.Host (C := C)) :
  In (Startup.CreateCallbackGroup feature_callback_group_)
     (snd (Startup.initialize_callback_groups host)).
Proof.
  unfold Startup.initialize_callback_groups, Startup.all_callback_groups.
  cbn [Startup.create_callback_groups].
  destruct (Startup.create_callback_group host feature_callback_group_).
  - destruct (if Startup.create_callback_group host settings_load_save_callback_group_
              then _ else _) as [ok tr].
    left. reflexivity.
  - left. reflexivity.
Qed.

(** X12: the settings file is loaded only when one is named, and when
    it fails to load, startup reports the file and the camera's error
    code and goes on to create the callback groups. *)
Theorem settings_file_is_optional {C double : Type}
    `{VimbaXCamera.Interface C} `{VimbaXCamera.Features C double}
    (host : Startup.Host (C := C)) (params : Startup.Parameters) :
  (Startup.settings_file params = EmptyString ->
   existsb is_settings_load (snd (Startup.make_shared_on host params)) = false)
  /\ (forall query cam code cam',
        Startup.create_node host (get_node_name (Startup.getpid host)) = true ->
        Startup.get_instance host = Some query ->
        Startup.open host (Startup.camera_id params) = Some cam ->
        Startup.settings_file params <> EmptyString ->
        VimbaXCamera.settings_load (Startup.settings_file params) cam = (Err code, cam') ->
        In (Startup.StartupLog
              (Startup.LoadingSettingsFailed (Startup.settings_file params) code))
           (snd (Startup.make_shared_on host params))
        /\ In (Startup.CreateCallbackGroup feature_callback_group_)
              (snd (Startup.make_shared_on host params))).
Proof.
  pose proof (feature_group_is_attempted host) as Hfeature.
  split.
  - intros Hempty.
    pose proof (fun groups =>
                  callback_groups_trace_without host is_settings_load groups
                    (fun _ => eq_refl)) as Hg.
    pose proof (services_trace_without host is_settings_load
                  (fun _ => eq_refl) (fun _ => eq_refl)) as Hs.
    pose proof (fun tr => teardown_trace_without is_settings_load tr (fun _ => eq_refl))
      as Ht.
    specialize (Hg Startup.all_callback_groups).
    fold (Startup.initialize_callback_groups host) in Hg.
    startup_cases host params;
      try (rewrite Hempty in Hfile; discriminate Hfile);
      rewrite ?Hgroups, ?Hservices in *; cbn [snd] in *;
      rewrite ?abandon_trace by reflexivity;
      repeat (rewrite ?existsb_app, ?Hg, ?Hs, ?Ht; cbn);
      try reflexivity;
      destruct (error =? VmbErrorSuccess); cbn;
      rewrite ?existsb_app, ?Hg, ?Hs, ?Ht; reflexivity.
  - intros query0 cam0 code cam0' Hnode0 Hapi0 Hopen0 Hnamed Hload0.
    apply String.eqb_neq in Hnamed.
    startup_cases host params;
      try discriminate;
      try (rewrite Hnamed in Hfile; discriminate Hfile);
      injection Hopen0 as <-; rewrite Hload0 in Hload;
      injection Hload as <- <-;
      rewrite ?Hgroups in Hfeature; cbn [snd] in Hfeature;
      (split; repeat (rewrite in_app_iff; cbn [In]); tauto).
Qed.

(** X13: a startup that fails never starts the monitor thread, and it
    ends with the teardown of the node it gives up: the stop flag is
    raised and the camera is released, stopped first only when it had
    been opened and streams.  A startup that succeeds starts the
    thread and tears nothing down. *)
Theorem failed_startup_releases_camera {C double : Type}
    `{VimbaXCamera.Interface C} `{VimbaXCamera.Features C double}
    (host : Startup.Host (C := C)) (params : Startup.Parameters) :
  match fst (Startup.make_shared_on host params) with
  | Some _ =>
      existsb is_teardown (snd (Startup.make_shared_on host params)) = false
      /\ existsb is_thread_start (snd (Startup.make_shared_on host params)) = true
  | None =>
      existsb is_thread_start (snd (Startup.make_shared_on host params)) = false
      /\ exists before stop,
           snd (Startup.make_shared_on host params)
           = before
             ++ map Startup.Teardown ([StoreStopThreads] ++ stop ++ [CameraReset])
           /\ existsb is_teardown before = false
           /\ (stop = []
               \/ (stop = [CameraStopStreaming]
                   /\ exists cam,
                        opened host params = Some cam
                        /\ VimbaXCamera.is_streaming cam = true))
  end.
Proof.
  pose proof (fun groups =>
                callback_groups_trace_without host is_teardown groups (fun _ => eq_refl))
    as Hg.
  pose proof (services_trace_without host is_teardown (fun _ => eq_refl) (fun _ => eq_refl))
    as Hs.
  pose proof (fun groups =>
                callback_groups_trace_without host is_thread_start groups
                  (fun _ => eq_refl)) as Hg'.
  pose proof (services_trace_without host is_thread_start
                (fun _ => eq_refl) (fun _ => eq_refl)) as Hs'.
  pose proof (fun tr => teardown_trace_without is_thread_start tr (fun _ => eq_refl))
    as Ht'.
  specialize (Hg Startup.all_callback_groups).
  specialize (Hg' Startup.all_callback_groups).
  fold (Startup.initialize_callback_groups host) in Hg, Hg'.
  unfold opened.
  startup_cases host params;
    rewrite ?Hgroups, ?Hservices in *; cbn [snd] in *;
    rewrite ?abandon_trace by reflexivity;
    rewrite ?app_assoc;
    try (split;
         [ repeat (rewrite ?existsb_app, ?Hg', ?Hs', ?Ht'; cbn);
           try reflexivity;
           destruct (error =? VmbErrorSuccess); try destruct loadResult; cbn;
           rewrite ?existsb_app, ?Hg', ?Hs', ?Ht'; reflexivity
         | ]).
  all: try (do 2 eexists; split; [reflexivity | ]; split;
            [ repeat (rewrite ?existsb_app, ?Hg, ?Hs; cbn);
              try reflexivity;
              destruct (error =? VmbErrorSuccess); try destruct loadResult; cbn;
              rewrite ?existsb_app, ?Hg, ?Hs; reflexivity
            | unfold still_streaming, streaming_of; cbn;
              rewrite ?Hfile, ?Hload; cbn;
              match goal with
              | |- context [VimbaXCamera.is_streaming ?c] =>
                  destruct (VimbaXCamera.is_streaming c) eqn:Hstreams;
                  [ right; split; [reflexivity | exists c; split; [reflexivity | exact Hstreams]]
                  | left; reflexivity ]
              | |- _ => left; reflexivity
              end ]).
  all: repeat (rewrite ?existsb_app, ?Hg, ?Hs, ?Hg', ?Hs'; cbn);
    destruct (error =? VmbErrorSuccess); try destruct loadResult; cbn;
    rewrite ?existsb_app, ?Hg, ?Hs, ?Hg', ?Hs'; cbn;
    rewrite ?orb_true_r; split; reflexivity.
Qed.

Lemma settings_file_is_optional_witness :
  Startup.create_node obliging (get_node_name (Startup.getpid obliging)) = true
  /\ Startup.open obliging (Startup.camera_id parameters_with_settings)
     = Some DeviceCamera.healthy
  /\ Startup.settings_file parameters_with_settings <> EmptyString
  /\ VimbaXCamera.settings_load (Startup.settings_file parameters_with_settings)
                                DeviceCamera.healthy
     = (Err DeviceCamera.not_found, DeviceCamera.healthy)
  /\ In (Startup.StartupLog
           (Startup.LoadingSettingsFailed "missing.xml"%string DeviceCamera.not_found))
        (snd (Startup.make_shared_on obliging parameters_with_settings)).
Proof.
  assert (Hnamed : Startup.settings_file parameters_with_settings <> EmptyString)
    by discriminate.
  split; [reflexivity | split; [reflexivity | split; [exact Hnamed | ]]].
  split; [reflexivity | ].
  exact (proj1 (proj2 (settings_file_is_optional obliging parameters_with_settings)
                  _ DeviceCamera.healthy DeviceCamera.not_found DeviceCamera.healthy
                  eq_refl eq_refl eq_refl Hnamed eq_refl)).
Defined.

Lemma create_services_until_failure {C : Type} (host : Startup.Host (C := C))
    (created : list service) :
  forall (s : service) (rest : list service),
    (forall x, In x created -> Startup.create_service host x = true) ->
    Startup.create_service host s = false ->
    Startup.create_services host (created ++ s :: rest)
    = (false, map Startup.CreateService (created ++ [s])).
Proof.
  induction created as [| x created IH]; intros s rest Hcreated Hfails.
  - cbn. rewrite Hfails. reflexivity.
  - cbn [app Startup.create_services map].
    rewrite (Hcreated x (or_introl eq_refl)).
    rewrite (IH s rest (fun y Hy => Hcreated y (or_intror Hy)) Hfails).
    reflexivity.
Qed.

(** X16: the services are created in the order of the source, and
    the first one that comes out null ends [initialize_services]:
    none of the services after it is created, and the function
    answers [false] without its closing message. *)
Theorem services_stop_at_first_failure {C : Type} (host : Startup.Host (C := C))
    (created : list service) (s : service) (rest : list service) :
  Startup.all_services = created ++ s :: rest ->
  (forall x, In x created -> Startup.create_service host x = true) ->
  Startup.create_service host s = false ->
  Startup.initialize_services host
  = (false,
     Startup.StartupLog Startup.InitializingServices
     :: map Startup.CreateService (created ++ [s])).
Proof.
  intros Hsplit Hcreated Hfails. unfold Startup.initialize_services.
  rewrite Hsplit, (create_services_until_failure host created s rest Hcreated Hfails).
  rewrite app_nil_r. reflexivity.
Qed.

Lemma services_stop_at_first_failure_witness :
  Startup.all_services
  = [feature_int_get_service_; feature_int_set_service_]
    ++ feature_int_info_get_service_
       :: skipn 3 Startup.all_services
  /\ Startup.create_service third_service_fails feature_int_info_get_service_ = false
  /\ Startup.initialize_services third_service_fails
     = (false,
        [Startup.StartupLog Startup.InitializingServices;
         Startup.CreateService feature_int_get_service_;
         Startup.CreateService feature_int_set_service_;
         Startup.CreateService feature_int_info_get_service_]).
Proof.
  split; [reflexivity | split; [reflexivity | ]].
  refine (services_stop_at_first_failure third_service_fails
            [feature_int_get_service_; feature_int_set_service_]
            feature_int_info_get_service_ (skipn 3 Startup.all_services)
            eq_refl _ eq_refl).
  intros x [<- | [<- | []]]; reflexivity.
Defined.

(** Two concrete startups: on the obliging host [make_shared] hands out
    the node the properties above start from; without a publisher it
    hands out nothing and the streaming camera it had opened is
    stopped and released. *)
Example startup_on_obliging_host :
  fst (Startup.make_shared_on obliging plain_parameters)
  = Some (make_shared DeviceCamera.healthy).
Proof. reflexivity. Qed.

Example startup_without_publisher :
  Startup.make_shared_on without_publisher plain_parameters
  = (None,
     [Startup.CreateNode "vimbax_camera_4242"%string;
      Startup.StartupLog Startup.InitializingApi;
      Startup.StartupLog Startup.StartingCameraNode;
      Startup.StartupLog Startup.LoadingApi;
      Startup.GetInstance;
      Startup.StartupLog (Startup.LoadedApiVersion (Startup.mkVersion 1 0 5));
      Startup.StartupLog Startup.InitializingCamera;
      Startup.OpenCamera "DEV_1"%string;
      Startup.CreateCallbackGroup feature_callback_group_;
      Startup.CreateCallbackGroup settings_load_save_callback_group_;
      Startup.CreateCallbackGroup status_callback_group_;
      Startup.CreateCallbackGroup stream_start_stop_callback_group_;
      Startup.StartupLog Startup.InitializingPublisher;
      Startup.CreatePublisher;
      Startup.Teardown StoreStopThreads;
      Startup.Teardown CameraStopStreaming;
      Startup.Teardown CameraReset]).
Proof. reflexivity. Qed.

(** ** The monitor over several wakes *)

Lemma turns_when_settled {C : Type} `{VimbaXCamera.Interface C} (turns : list bool) :
  forall (nd : Node) (cam : C),
    camera_ nd = Some cam ->
    VimbaXCamera.is_streaming cam = (0 <? num_subscribers nd)%N ->
    graph_notify_turns turns nd = Some (tt, nd, []).
Proof.
  induction turns as [| changed rest IH]; intros nd cam Hcam Hsettled; [reflexivity | ].
  cbn [graph_notify_turns]. unfold bind.
  destruct changed.
  - rewrite (settled_wake_requests_nothing nd cam Hcam Hsettled).
    rewrite (IH nd cam Hcam Hsettled). reflexivity.
  - rewrite unchanged_wake_does_nothing.
    rewrite (IH nd cam Hcam Hsettled). reflexivity.
Qed.

Lemma changed_turn_settles {C : Type} `{VimbaXCamera.Interface C} (good : C -> Prop)
    (nd : Node) (cam : C) :
  (forall n c, good c ->
               good (snd (VimbaXCamera.start_streaming n c))
               /\ VimbaXCamera.is_streaming (snd (VimbaXCamera.start_streaming n c)) = true) ->
  (forall c, good c ->
             good (snd (VimbaXCamera.stop_streaming c))
             /\ VimbaXCamera.is_streaming (snd (VimbaXCamera.stop_streaming c)) = false) ->
  camera_ nd = Some cam ->
  good cam ->
  exists nd' cam' tr,
    graph_notify_iteration true nd = Some (tt, nd', tr)
    /\ camera_ nd' = Some cam'
    /\ good cam'
    /\ VimbaXCamera.is_streaming cam' = (0 <? num_subscribers nd)%N
    /\ num_subscribers nd' = num_subscribers nd
    /\ (List.length (filter is_transition tr) <= 1)%nat.
Proof.
  intros Hstart Hstop Hcam Hgood.
  destruct (Hstart (buffer_count nd) cam Hgood) as [Hgood2 Hs2].
  destruct (Hstop cam Hgood) as [Hgood1 Hs1].
  destruct (num_subscribers nd =? 0)%N eqn:En;
    destruct (VimbaXCamera.is_streaming cam) eqn:Hs;
    destruct (VimbaXCamera.stop_streaming cam) as [res1 cam1] eqn:Hstopped;
    destruct (VimbaXCamera.start_streaming (buffer_count nd) cam)
      as [res2 cam2] eqn:Hstarted;
    cbn [snd] in *;
    run;
    repeat (rewrite ?positive_iff_not_zero, ?En, ?Hcam, ?Hs, ?Hstopped, ?Hstarted;
            cbn -[N.eqb]);
    do 3 eexists;
    (split; [reflexivity | ]);
    (split; [reflexivity | ]);
    cbn; repeat split; first [assumption | lia | reflexivity].
Qed.

(** X14: with a camera whose starts and stops take effect, the
    monitor acts on a graph change once: over any number of wakes with
    the same subscriber count it requests at most one transition, and
    after the first wake with a change the camera streams exactly when
    there are subscribers. *)
Theorem monitor_acts_once {C : Type} `{VimbaXCamera.Interface C} (good : C -> Prop)
    (turns : list bool) :
  (forall n c, good c ->
               good (snd (VimbaXCamera.start_streaming n c))
               /\ VimbaXCamera.is_streaming (snd (VimbaXCamera.start_streaming n c)) = true) ->
  (forall c, good c ->
             good (snd (VimbaXCamera.stop_streaming c))
             /\ VimbaXCamera.is_streaming (snd (VimbaXCamera.stop_streaming c)) = false) ->
  forall (nd : Node) (cam : C),
    camera_ nd = Some cam ->
    good cam ->
    exists r,
      graph_notify_turns turns nd = Some r
      /\ (List.length (filter is_transition (trace_of r)) <= 1)%nat
      /\ (existsb (fun changed => changed) turns = true ->
          streaming_of (node_of r) = Some (0 <? num_subscribers nd)%N).
Proof.
  intros Hstart Hstop.
  induction turns as [| changed rest IH]; intros nd cam Hcam Hgood.
  - eexists. split; [reflexivity | ]. split; [cbn; lia | discriminate].
  - cbn [graph_notify_turns existsb]. unfold bind. destruct changed.
    + destruct (changed_turn_settles good nd cam Hstart Hstop Hcam Hgood)
        as [nd1 [cam1 [tr1 [Hturn [Hcam1 [_ [Hsettled [Hsame Hone]]]]]]]].
      rewrite Hturn. rewrite <- Hsame in Hsettled.
      rewrite (turns_when_settled rest nd1 cam1 Hcam1 Hsettled).
      eexists. split; [reflexivity | ].
      unfold trace_of, node_of, streaming_of. cbn [fst snd].
      rewrite app_nil_r. split; [exact Hone | ].
      intros _. rewrite Hcam1. cbn. rewrite Hsettled, Hsame. reflexivity.
    + rewrite unchanged_wake_does_nothing.
      destruct (IH nd cam Hcam Hgood) as [[[[] nd2] tr2] [Hrest [Hone Hsettled]]].
      rewrite Hrest. eexists. split; [reflexivity | ].
      split; [exact Hone | exact Hsettled].
Qed.

Lemma monitor_acts_once_witness :
  camera_ (subscribed 2 DeviceCamera.healthy) = Some DeviceCamera.healthy
  /\ DeviceCamera.start_rejection DeviceCamera.healthy = None
  /\ exists r,
       graph_notify_turns [false; true; true; true] (subscribed 2 DeviceCamera.healthy)
       = Some r
       /\ (List.length (filter is_transition (trace_of r)) <= 1)%nat.
Proof.
  split; [reflexivity | split; [reflexivity | ]].
  destruct (monitor_acts_once (fun c => DeviceCamera.start_rejection c = None)
              [false; true; true; true]) with
    (nd := subscribed 2 DeviceCamera.healthy) (cam := DeviceCamera.healthy)
    as [r [Hr [Hone _]]].
  - intros n c Hc. unfold VimbaXCamera.start_streaming, VimbaXCamera.is_streaming.
    cbn. unfold DeviceCamera.device_start_streaming.
    destruct c as [[ | ] rejection failure already]; cbn in *; subst; cbn;
      split; reflexivity.
  - intros c Hc. unfold VimbaXCamera.stop_streaming, VimbaXCamera.is_streaming.
    cbn. unfold DeviceCamera.device_stop_streaming.
    destruct c as [[ | ] rejection failure already]; cbn in *; subst; cbn;
      split; reflexivity.
  - reflexivity.
  - reflexivity.
  - exists r. split; [exact Hr | exact Hone].
Defined.

Lemma changed_turn_retries {C : Type} `{VimbaXCamera.Interface C} (stuck : C -> Prop)
    (nd : Node) (cam : C) :
  (forall n c, stuck c ->
               VimbaXCamera.is_streaming c = false
               /\ stuck (snd (VimbaXCamera.start_streaming n c))) ->
  camera_ nd = Some cam ->
  stuck cam ->
  (0 < num_subscribers nd)%N ->
  exists nd' cam' tr,
    graph_notify_iteration true nd = Some (tt, nd', tr)
    /\ camera_ nd' = Some cam'
    /\ stuck cam'
    /\ num_subscribers nd' = num_subscribers nd
    /\ buffer_count nd' = buffer_count nd
    /\ filter is_transition tr = [CameraStartStreaming (buffer_count nd)].
Proof.
  intros Hstuck Hcam Hcam_stuck Hsubs.
  destruct (Hstuck (buffer_count nd) cam Hcam_stuck) as [Hs Hnext].
  apply N.ltb_lt in Hsubs.
  destruct (VimbaXCamera.start_streaming (buffer_count nd) cam)
    as [res2 cam2] eqn:Hstarted.
  cbn [snd] in *. run.
  repeat (rewrite ?Hsubs, ?Hcam, ?Hs, ?Hstarted; cbn -[N.ltb]).
  do 3 eexists. split; [reflexivity | ]. split; [reflexivity | ].
  cbn. repeat split. exact Hnext.
Qed.

(** X15: the monitor does not remember a start that failed: while
    there are subscribers and the camera stays stopped, every wake
    with a graph change requests the start again, with the buffer
    count of the parameter, and wakes without a change request
    nothing. *)
Theorem monitor_retries_failed_start {C : Type} `{VimbaXCamera.Interface C}
    (stuck : C -> Prop) (turns : list bool) :
  (forall n c, stuck c ->
               VimbaXCamera.is_streaming c = false
               /\ stuck (snd (VimbaXCamera.start_streaming n c))) ->
  forall (nd : Node) (cam : C),
    camera_ nd = Some cam ->
    stuck cam ->
    (0 < num_subscribers nd)%N ->
    exists r,
      graph_notify_turns turns nd = Some r
      /\ filter is_transition (trace_of r)
         = repeat (CameraStartStreaming (buffer_count nd))
                  (List.length (filter (fun changed => changed) turns)).
Proof.
  intros Hstuck.
  induction turns as [| changed rest IH]; intros nd cam Hcam Hcam_stuck Hsubs.
  - eexists. split; reflexivity.
  - cbn [graph_notify_turns filter]. unfold bind. destruct changed.
    + destruct (changed_turn_retries stuck nd cam Hstuck Hcam Hcam_stuck Hsubs)
        as [nd1 [cam1 [tr1 [Hturn [Hcam1 [Hstuck1 [Hsame [Hcount Hstart]]]]]]]].
      rewrite Hturn. rewrite <- Hsame in Hsubs.
      destruct (IH nd1 cam1 Hcam1 Hstuck1 Hsubs) as [[[[] nd2] tr2] [Hrest Hstarts]].
      rewrite Hrest. eexists. split; [reflexivity | ].
      unfold trace_of in *. cbn [fst snd] in *.
      rewrite filter_app, Hstart, Hstarts, Hcount. reflexivity.
    + rewrite unchanged_wake_does_nothing.
      destruct (IH nd cam Hcam Hcam_stuck Hsubs) as [[[[] nd2] tr2] [Hrest Hstarts]].
      rewrite Hrest. eexists. split; [reflexivity | ]. exact Hstarts.
Qed.

Lemma monitor_retries_failed_start_witness :
  camera_ (subscribed 1 (rejecting (-5))) = Some (rejecting (-5))
  /\ (0 < num_subscribers (subscribed 1 (rejecting (-5))))%N
  /\ exists r,
       graph_notify_turns [true; false; true] (subscribed 1 (rejecting (-5))) = Some r
       /\ filter is_transition (trace_of r)
          = [CameraStartStreaming default_buffer_count;
             CameraStartStreaming default_buffer_count].
Proof.
  split; [reflexivity | split; [reflexivity | ]].
  destruct (monitor_retries_failed_start
              (fun c => DeviceCamera.streaming c = false
                        /\ DeviceCamera.start_rejection c <> None)
              [true; false; true]) with
    (nd := subscribed 1 (rejecting (-5))) (cam := rejecting (-5))
    as [r [Hr Hstarts]].
  - intros n c [Hstopped Hrejects]. split; [exact Hstopped | ].
    unfold VimbaXCamera.start_streaming. cbn. unfold DeviceCamera.device_start_streaming.
    rewrite Hstopped.
    destruct (DeviceCamera.start_rejection c) as [code | ] eqn:Hcode; cbn.
    + split; [exact Hstopped | rewrite Hcode; discriminate].
    + exfalso. apply Hrejects. reflexivity.
  - reflexivity.
  - split; [reflexivity | discriminate].
  - reflexivity.
  - exists r. split; [exact Hr | exact Hstarts].
Defined.
